(** * Shallow embedding of the evil_chat_server collaborative core

    - [Daw]: the operation log of a DAW project
      (src/src/routes/projects.ts, POST /:projectId/daw/ops, over the
      tables project_ops and project_snapshot of
      src/db/migrations/0001_init.js);
    - [Presence]: the connection-count map serverOnlineUsers of
      src/src/websocket/socketHandlers.ts (auth and disconnect handlers,
      getOnlineUsersForServer);
    - [Voice]: the voice_sessions ledger (voice:join, voice:leave). *)

From Stdlib Require Import ZArith QArith Lia.
From stdpp Require Import base gmap strings list pretty.

Open Scope Z_scope.

Module Daw.

(** The validated request body (SubmitOpsRequestSchema in
    src/types/dawOps): each op carries its base fields, the rest passes
    through unchanged. JSON numbers are rationals here. *)
Record DawOp := mkDawOp {
  op_id : string;
  op_clientId : string;
  op_timestamp : Q;
  op_baseVersion : Q;
  op_type : string
}.

(** A row of project_ops: UNIQUE (project_id, version_int). *)
Record project_op := mkProjectOp {
  po_project_id : Z;
  po_version_int : Z;
  po_op_json : DawOp
}.

(** A row of project_snapshot, keyed by project_id. *)
Record snapshot := mkSnapshot {
  snapshot_json : string;
  snap_version_int : Z;
  snap_updated_at : Z
}.

(** The tables the handler touches. *)
Record db := mkDb {
  projects : gset Z;
  project_ops : list project_op;
  project_snapshot : gmap Z snapshot
}.

(** [knex('project_ops').where('project_id', projectId)
     .max('version_int as max_version').first()]: [None] is SQL NULL. *)
Definition max_version (projectId : Z) (rows : list project_op) : option Z :=
  fold_left
    (fun acc r =>
       if Z.eqb (po_project_id r) projectId then
         match acc with
         | None => Some (po_version_int r)
         | Some m => Some (Z.max m (po_version_int r))
         end
       else acc)
    rows None.

(** The first read, lines 238-265: NULL gives 0, and a maximum above
    1,000,000 is reset to 0. *)
Definition current_version_of (maxOp : option Z) : Z :=
  match maxOp with
  | None => 0
  | Some versionNum => if Z.ltb 1000000 versionNum then 0 else versionNum
  end.

(** The re-read after a duplicate key, lines 305-315 (no bound). *)
Definition reread_version_of (maxOpRetry : option Z) : Z :=
  match maxOpRetry with
  | None => 0
  | Some rawVersion => rawVersion
  end.

(** [ops.map((op, idx) => ({ version_int: currentVersion + idx + 1, ...}))] *)
Definition ops_to_insert (projectId currentVersion : Z) (ops : list DawOp)
  : list project_op :=
  imap (fun idx op => mkProjectOp projectId (currentVersion + Z.of_nat idx + 1) op) ops.

(** Does a row violate UNIQUE (project_id, version_int) against [table]? *)
Definition conflicts (r : project_op) (table : list project_op) : bool :=
  existsb (fun r' => Z.eqb (po_project_id r') (po_project_id r)
                     && Z.eqb (po_version_int r') (po_version_int r)) table.

(** A multi-row INSERT is one statement: either every row goes in, or
    the unique violation (code 23505) aborts it and nothing is written. *)
Fixpoint insert_rows (table rows : list project_op) : option (list project_op) :=
  match rows with
  | [] => Some table
  | r :: rest => if conflicts r table then None else insert_rows (table ++ [r]) rest
  end.

(** [.update({ version_int, updated_at })] on the snapshot row, if any. *)
Definition update_snapshot_version (projectId newVersion now : Z)
    (snaps : gmap Z snapshot) : gmap Z snapshot :=
  match snaps !! projectId with
  | Some s => <[projectId := mkSnapshot (snapshot_json s) newVersion now]> snaps
  | None => snaps
  end.

(** HTTP responses of the handler. *)
Inductive response :=
| ProjectNotFound                                   (* 404 *)
| VersionConflict (message : string) (serverVersion : Z)
                  (clientBaseVersion : Q)           (* 409 *)
| Applied (newVersion : Z) (appliedCount : Z).      (* 200 *)

Definition msg_ahead : string := "Client version is ahead of server".
Definition msg_raced : string := "Another client inserted operations first".

(** The part of the handler up to the insert (lines 222-292): either it
    answers, or it hands the current version and the rows to insert on. *)
Definition submit_read (d : db) (projectId : Z) (baseVersion : Q)
    (ops : list DawOp) : response + (Z * list project_op) :=
  if negb (bool_decide (projectId ∈ projects d)) then inl ProjectNotFound
  else
    let currentVersion := current_version_of (max_version projectId (project_ops d)) in
    if negb (Qle_bool baseVersion (inject_Z currentVersion)) then
      inl (VersionConflict msg_ahead currentVersion baseVersion)
    else
      let opsToInsert := ops_to_insert projectId currentVersion ops in
      if Nat.eqb (length opsToInsert) 0 then inl (Applied currentVersion 0)
      else inr (currentVersion, opsToInsert).

(** The rest (lines 294-339), on the store as it is when the insert
    runs; other requests may have written to it since [submit_read]. *)
Definition submit_write (d : db) (now projectId : Z) (baseVersion : Q)
    (currentVersion : Z) (opsToInsert : list project_op) : response * db :=
  match insert_rows (project_ops d) opsToInsert with
  | None =>
      let newCurrentVersion :=
        reread_version_of (max_version projectId (project_ops d)) in
      (VersionConflict msg_raced newCurrentVersion baseVersion, d)
  | Some table =>
      let newVersion := currentVersion + Z.of_nat (length opsToInsert) in
      (Applied newVersion (Z.of_nat (length opsToInsert)),
       mkDb (projects d) table
            (update_snapshot_version projectId newVersion now (project_snapshot d)))
  end.

(** A submission whose read sees [d_read] and whose insert meets [d_write]. *)
Definition submit_raced (d_read d_write : db) (now projectId : Z)
    (baseVersion : Q) (ops : list DawOp) : response * db :=
  match submit_read d_read projectId baseVersion ops with
  | inl r => (r, d_write)
  | inr (currentVersion, opsToInsert) =>
      submit_write d_write now projectId baseVersion currentVersion opsToInsert
  end.

(** A submission that no other request interleaves with. *)
Definition submit (d : db) (now projectId : Z) (baseVersion : Q)
    (ops : list DawOp) : response * db :=
  submit_raced d d now projectId baseVersion ops.

(** A request: time, project, baseVersion and ops. *)
Definition request : Type := Z * Z * Q * list DawOp.

(** Sequential submissions, the store threaded through. *)
Fixpoint run_submits (d : db) (reqs : list request) : db :=
  match reqs with
  | [] => d
  | (now, p, b, ops) :: rest => run_submits (snd (submit d now p b ops)) rest
  end.

(** The versions stored for a project, in table order. *)
Definition versions_of (projectId : Z) (rows : list project_op) : list Z :=
  map po_version_int (List.filter (fun r => Z.eqb (po_project_id r) projectId) rows).

(** [c+1; c+2; ...; c+n]. *)
Definition zrange (c : Z) (n : nat) : list Z :=
  map (fun k => c + Z.of_nat k + 1) (seq 0 n).

(** [1; 2; ...; n]. *)
Definition zseq (n : Z) : list Z := zrange 0 (Z.to_nat n).

(** The key of the unique index. *)
Definition op_key (r : project_op) : Z * Z := (po_project_id r, po_version_int r).

(** One step of the MAX aggregate. *)
Definition max_step (acc : option Z) (v : Z) : option Z :=
  match acc with
  | None => Some v
  | Some m => Some (Z.max m v)
  end.

(** The state the spec's invariant describes for project [p]: its
    snapshot row holds [V] and its stored versions are [1..V]. *)
Definition contiguous_log (p : Z) (d : db) : Prop :=
  exists s, project_snapshot d !! p = Some s /\ 0 <= snap_version_int s /\
            versions_of p (project_ops d) = zseq (snap_version_int s).

End Daw.

(** Concrete stores used to run the handler. *)
Module DawScenarios.
Import Daw.

Definition op_of (name : string) : DawOp := mkDawOp name "client-1" 0 0 "addTrack".

(** Project 7 just created: snapshot at version 0, no operations. *)
Definition doc_empty : db :=
  mkDb {[ 7 ]} [] {[ 7 := mkSnapshot "{}" 0 0 ]}.

(** Project 7 after one batch of 1,000,001 operations (see
    [doc_big_reachable]). *)
Definition doc_big : db :=
  mkDb {[ 7 ]} (ops_to_insert 7 0 (repeat (op_of "x") (Z.to_nat 1000001)))
       {[ 7 := mkSnapshot "{}" 1000001 0 ]}.

(** Project 7 after one batch of two operations: versions 1 and 2. *)
Definition doc_two : db :=
  mkDb {[ 7 ]} (ops_to_insert 7 0 [op_of "A"; op_of "B"]) {[ 7 := mkSnapshot "{}" 2 0 ]}.

(** The spec's race scenario: requests A,B then C, both read version 0. *)
Definition race_requests : list request :=
  [(1, 7, 0%Q, [op_of "A"; op_of "B"]); (2, 7, 2%Q, [op_of "C"])].

End DawScenarios.

Module Presence.

(** serverOnlineUsers: serverId -> (userId -> connection count). The
    inner JS Map is mutated in place and stays reachable from the outer
    one, so each update is written back under its server id here. *)

(** The auth handler, lines 92-107: the count goes up by one, and the
    "user:online" broadcast fires iff the previous count was 0. *)
Definition presence_connect (serverOnlineUsers : gmap Z (gmap string Z))
    (serverIdNum : Z) (userIdStr : string) : gmap Z (gmap string Z) * bool :=
  let serverMap := default ∅ (serverOnlineUsers !! serverIdNum) in
  let prevCount := default 0 (serverMap !! userIdStr) in
  let serverMap' := <[userIdStr := prevCount + 1]> serverMap in
  (<[serverIdNum := serverMap']> serverOnlineUsers, Z.eqb prevCount 0).

(** The disconnect handler, lines 299-316; the boolean says whether the
    "user:offline" broadcast fires. *)
Definition presence_disconnect (serverOnlineUsers : gmap Z (gmap string Z))
    (serverId : Z) (userId : string) : gmap Z (gmap string Z) * bool :=
  match serverOnlineUsers !! serverId with
  | None => (serverOnlineUsers, false)
  | Some onlineUsers =>
      let prevCount := default 0 (onlineUsers !! userId) in
      let nextCount := Z.max 0 (prevCount - 1) in
      let '(onlineUsers', offline) :=
        if Z.eqb nextCount 0 then (delete userId onlineUsers, true)
        else (<[userId := nextCount]> onlineUsers, false) in
      (if Nat.eqb (size onlineUsers') 0 then delete serverId serverOnlineUsers
       else <[serverId := onlineUsers']> serverOnlineUsers, offline)
  end.

(** getOnlineUsersForServer, lines 325-328 (JS keeps insertion order,
    the list here is in key order; only membership is used). *)
Definition getOnlineUsersForServer (serverOnlineUsers : gmap Z (gmap string Z))
    (serverId : Z) : list string :=
  match serverOnlineUsers !! serverId with
  | Some onlineUsers => map fst (map_to_list onlineUsers)
  | None => []
  end.

(** The entry of a (server, user) pair, if any. *)
Definition presence_entry (serverOnlineUsers : gmap Z (gmap string Z))
    (serverId : Z) (userId : string) : option Z :=
  serverOnlineUsers !! serverId ≫= fun onlineUsers => onlineUsers !! userId.

(** Connection lifecycle events reaching the registry. *)
Inductive presence_event :=
| Connect (serverId : Z) (userId : string)
| Disconnect (serverId : Z) (userId : string).

Definition presence_step (reg : gmap Z (gmap string Z)) (e : presence_event)
  : gmap Z (gmap string Z) :=
  match e with
  | Connect r u => fst (presence_connect reg r u)
  | Disconnect r u => fst (presence_disconnect reg r u)
  end.

Definition run_presence (reg : gmap Z (gmap string Z)) (evs : list presence_event)
  : gmap Z (gmap string Z) :=
  fold_left presence_step evs reg.

(** Every server map present is non-empty and holds positive counts. *)
Definition registry_ok (reg : gmap Z (gmap string Z)) : Prop :=
  forall r m, reg !! r = Some m ->
    m <> ∅ /\ (forall u c, m !! u = Some c -> 0 < c).

(** Server 1 with only "bob" online. *)
Definition reg_bob : gmap Z (gmap string Z) := {[ 1 := {[ "bob" := 1 ]} ]}.

End Presence.

Module Voice.

(** A row of voice_sessions; [None] is left_at IS NULL. *)
Record voice_session := mkVoiceSession {
  vs_id : Z;
  vs_channel_id : Z;
  vs_user_id : string;
  vs_joined_at : Z;
  vs_left_at : option Z
}.

(** The columns of channels the handlers read. *)
Record channel := mkChannel {
  ch_id : Z;
  ch_server_id : Z;
  ch_type : string
}.

(** userSessions.get(socket.id): the authenticated user of the socket. *)
Record UserSession := mkUserSession {
  us_userId : string;
  us_serverId : Z
}.

(** The tables the voice handlers touch; [next_session_id] is the
    BIGSERIAL counter of voice_sessions.id. *)
Record voice_db := mkVoiceDb {
  channels : list channel;
  users : list string;
  voice_sessions : list voice_session;
  next_session_id : Z
}.

(** Callback payloads of voice:join and voice:leave; the
    "voice:participants" broadcast carries the list of user ids. *)
Inductive voice_reply :=
| Unauthorized
| InvalidRequest
| Forbidden
| VoiceError
| Joined (sessionId : Z) (participants : list string)
| Left (participants : list string).

Definition is_open (s : voice_session) : bool :=
  match vs_left_at s with None => true | Some _ => false end.

(** The roster query: voice_sessions joined with users on user_id, rows
    of the channel with left_at NULL. The query has no ORDER BY; the list
    here is in table order, and only which users it holds, and how many
    times, carries over to the real roster. *)
Definition participants (d : voice_db) (channelId : Z) : list string :=
  flat_map
    (fun s =>
       if Z.eqb (vs_channel_id s) channelId && is_open s
          && existsb (String.eqb (vs_user_id s)) (users d)
       then [vs_user_id s] else [])
    (voice_sessions d).

(** voice:join, lines 179-237 (channelId 0 is the falsy id). *)
Definition voice_join (d : voice_db) (session : option UserSession)
    (channelId now : Z) : voice_reply * voice_db :=
  match session with
  | None => (Unauthorized, d)
  | Some sess =>
      if Z.eqb channelId 0 then (InvalidRequest, d)
      else if negb (existsb (fun c => Z.eqb (ch_id c) channelId
                                      && Z.eqb (ch_server_id c) (us_serverId sess)
                                      && String.eqb (ch_type c) "voice") (channels d))
      then (Forbidden, d)
      else if negb (existsb (String.eqb (us_userId sess)) (users d))
      then (VoiceError, d)   (* user_id REFERENCES users(id) *)
      else
        let row := mkVoiceSession (next_session_id d) channelId (us_userId sess) now None in
        let d' := mkVoiceDb (channels d) (users d) (voice_sessions d ++ [row])
                            (next_session_id d + 1) in
        (Joined (next_session_id d) (participants d' channelId), d')
  end.

(** One row under [.where(user_id).andWhere(channel_id).whereNull(left_at)
    .update({ left_at: now })]; [None] is a violation of
    CHECK (left_at IS NULL OR left_at >= joined_at). *)
Definition close_open (userId : string) (channelId now : Z) (s : voice_session)
  : option voice_session :=
  if String.eqb (vs_user_id s) userId && Z.eqb (vs_channel_id s) channelId && is_open s
  then if Z.leb (vs_joined_at s) now
       then Some (mkVoiceSession (vs_id s) (vs_channel_id s) (vs_user_id s)
                                 (vs_joined_at s) (Some now))
       else None
  else Some s.

(** The UPDATE is one statement: all matching rows change, or none. *)
Fixpoint close_sessions (userId : string) (channelId now : Z)
    (rows : list voice_session) : option (list voice_session) :=
  match rows with
  | [] => Some []
  | s :: rest =>
      match close_open userId channelId now s, close_sessions userId channelId now rest with
      | Some s', Some rest' => Some (s' :: rest')
      | _, _ => None
      end
  end.

(** voice:leave, lines 240-285. *)
Definition voice_leave (d : voice_db) (session : option UserSession)
    (channelId now : Z) : voice_reply * voice_db :=
  match session with
  | None => (Unauthorized, d)
  | Some sess =>
      if Z.eqb channelId 0 then (InvalidRequest, d)
      else
        match close_sessions (us_userId sess) channelId now (voice_sessions d) with
        | None => (VoiceError, d)
        | Some rows =>
            let d' := mkVoiceDb (channels d) (users d) rows (next_session_id d) in
            (Left (participants d' channelId), d')
        end
  end.

(** Server 1 with voice channel 5 and user "p". *)
Definition voice_server : voice_db :=
  mkVoiceDb [mkChannel 5 1 "voice"] ["p"] [] 1.

Definition session_p : UserSession := mkUserSession "p" 1.

End Voice.

(** The other routes of the projects router (src/routes/projects.ts). *)
Module DawRoutes.
Import Daw.

(** A string written with single quotes for JSON's double quotes. *)
Fixpoint sq_to_dq (s : string) : string :=
  match s with
  | EmptyString => EmptyString
  | String c rest =>
      String (if Ascii.eqb c (Ascii.ascii_of_nat 39) then Ascii.ascii_of_nat 34 else c) (sq_to_dq rest)
  end.

(** JSON.stringify(initialState) of GET /:projectId/daw and POST /
    (projectId.toString() is the decimal numeral). *)
Definition initial_state_json (projectId : Z) : string :=
  sq_to_dq ("{'projectId':'" +:+ pretty projectId +:+
            "','version':0,'tracks':{},'audioAssets':{},'audioClips':{},'midiClips':{},'trackOrder':[],'transport':{'bpm':120,'isPlaying':false,'positionSeconds':0}}").

(** [.orderBy('version_int', 'asc')], as a stable insertion sort (the
    unique index leaves no ties within a project). *)
Fixpoint insert_by_version (r : project_op) (rows : list project_op) : list project_op :=
  match rows with
  | [] => [r]
  | r' :: rest =>
      if Z.leb (po_version_int r) (po_version_int r') then r :: rows
      else r' :: insert_by_version r rest
  end.

Fixpoint sort_by_version (rows : list project_op) : list project_op :=
  match rows with
  | [] => []
  | r :: rest => insert_by_version r (sort_by_version rest)
  end.

(** [ops[ops.length - 1].version_int] when there are rows, else 0 (the
    BIGINT arrives as a decimal string and goes through parseInt). *)
Definition latest_version (ops : list project_op) : Z :=
  match rev ops with
  | [] => 0
  | r :: _ => po_version_int r
  end.

Inductive ops_response :=
| OpsNotFound                                                   (* 404 *)
| OpsLog (projectId : Z) (operations : list DawOp) (version : Z).

(** GET /:projectId/daw/ops, lines 78-129. *)
Definition get_ops (d : db) (projectId : Z) : ops_response :=
  if negb (bool_decide (projectId ∈ projects d)) then OpsNotFound
  else
    let ops := sort_by_version
                 (List.filter (fun r => Z.eqb (po_project_id r) projectId) (project_ops d)) in
    OpsLog projectId (map po_op_json ops) (latest_version ops).

Inductive snap_response :=
| SnapNotFound                                                  (* 404 *)
| SnapState (snapshot : string) (version : Z).

(** GET /:projectId/daw, lines 132-199: read the snapshot row, or insert
    the initial one at version 0 (updated_at defaults to now()). *)
Definition get_snapshot (d : db) (now projectId : Z) : snap_response * db :=
  if negb (bool_decide (projectId ∈ projects d)) then (SnapNotFound, d)
  else
    match project_snapshot d !! projectId with
    | Some s => (SnapState (snapshot_json s) (snap_version_int s), d)
    | None =>
        let s := mkSnapshot (initial_state_json projectId) 0 now in
        (SnapState (snapshot_json s) 0,
         mkDb (projects d) (project_ops d) (<[projectId := s]> (project_snapshot d)))
    end.

Inductive create_response :=
| InvalidName                                                   (* 400 *)
| Unauthenticated                                               (* 401 *)
| CreateError                                                   (* 500 *)
| Created (projectId : Z).

(** POST /, lines 352-403. [name] is [None] when req.body.name is not a
    string; [newId] is the next value of the projects id sequence and
    [users] the ids of the users table. The transaction inserts the
    project and its snapshot row, or nothing when either insert hits a
    primary key or owner_user_id REFERENCES users(id) fails. *)
Definition create_project (d : db) (users : list string) (name userId : option string)
    (newId now : Z) : create_response * db :=
  match name with
  | None | Some EmptyString => (InvalidName, d)
  | Some _ =>
      match userId with
      | None | Some EmptyString => (Unauthenticated, d)
      | Some uid =>
          if bool_decide (newId ∈ projects d) then (CreateError, d)
          else if negb (existsb (String.eqb uid) users) then (CreateError, d)
          else match project_snapshot d !! newId with
               | Some _ => (CreateError, d)
               | None =>
                   (Created newId,
                    mkDb ({[ newId ]} ∪ projects d) (project_ops d)
                         (<[newId := mkSnapshot (initial_state_json newId) 0 now]>
                            (project_snapshot d)))
               end
      end
  end.

End DawRoutes.

(** The socket handlers as a whole (src/websocket/socketHandlers.ts),
    with the module-level maps userSessions and serverOnlineUsers, and
    the REST routes that read them or create channels. *)
Module Sockets.
Import Presence Voice.

(** String.prototype.trim on strings of code units below 256: the
    whitespace and line terminators there are 9-13, 32 and 160. *)
Definition js_space (c : Ascii.ascii) : bool :=
  let n := Ascii.nat_of_ascii c in
  (Nat.leb 9 n && Nat.leb n 13) || Nat.eqb n 32 || Nat.eqb n 160.

Fixpoint drop_while (f : Ascii.ascii -> bool) (l : list Ascii.ascii) : list Ascii.ascii :=
  match l with
  | [] => []
  | c :: rest => if f c then drop_while f rest else l
  end.

Definition trim_with (f : Ascii.ascii -> bool) (s : string) : string :=
  String.string_of_list_ascii
    (rev (drop_while f (rev (drop_while f (String.list_ascii_of_string s))))).

Definition js_trim (s : string) : string := trim_with js_space s.

(** PostgreSQL's trim(content): only spaces are removed. *)
Definition pg_trim (s : string) : string :=
  trim_with (fun c => Ascii.eqb c (Ascii.ascii_of_nat 32)) s.

(** CONSTRAINT messages_content_nonempty CHECK (length(trim(content)) > 0) *)
Definition messages_content_nonempty (content : string) : bool :=
  negb (String.eqb (pg_trim content) EmptyString).

(** A row of messages. *)
Record message := mkMessage {
  msg_id : Z;
  msg_channel_id : Z;
  msg_user_id : string;
  msg_content : string
}.

(** The server state: the two module-level maps, the memberships table
    and the tables the voice and message handlers use. *)
Record socket_state := mkSocketState {
  userSessions : gmap string UserSession;
  serverOnlineUsers : gmap Z (gmap string Z);
  server_memberships : list (Z * string);
  vdb : voice_db;
  messages : list message;
  next_message_id : Z
}.

Definition with_vdb (st : socket_state) (d : voice_db) : socket_state :=
  mkSocketState (userSessions st) (serverOnlineUsers st) (server_memberships st) d
                (messages st) (next_message_id st).

Inductive auth_reply :=
| AuthInvalidRequest
| AuthForbidden
| AuthUserNotFound
| AuthSuccess (online_broadcast : bool) (onlineUserIds : list string).

(** The "auth" handler, lines 50-123. [userIdStr] is the userId after
    its String coercion, [serverIdNum] is [None] when Number(serverId)
    is not finite. The reply carries whether "user:online" is broadcast
    and the ids of the "presence:sync" message. *)
Definition auth_handler (st : socket_state) (socketId userIdStr : string)
    (serverIdNum : option Z) : auth_reply * socket_state :=
  match serverIdNum with
  | None => (AuthInvalidRequest, st)
  | Some serverId =>
      if String.eqb userIdStr EmptyString then (AuthInvalidRequest, st)
      else if negb (existsb (fun m => Z.eqb (fst m) serverId && String.eqb (snd m) userIdStr)
                            (server_memberships st))
      then (AuthForbidden, st)
      else if negb (existsb (String.eqb userIdStr) (users (vdb st)))
      then (AuthUserNotFound, st)
      else
        let session := mkUserSession userIdStr serverId in
        let (reg', online) := presence_connect (serverOnlineUsers st) serverId userIdStr in
        (AuthSuccess online (getOnlineUsersForServer reg' serverId),
         mkSocketState (<[socketId := session]> (userSessions st)) reg'
                       (server_memberships st) (vdb st) (messages st) (next_message_id st))
  end.

(** One open row of the user under [.where(user_id).whereNull(left_at)
    .update({ left_at: now })] (all channels). *)
Definition close_user_open (userId : string) (now : Z) (s : voice_session)
  : option voice_session :=
  if String.eqb (vs_user_id s) userId && is_open s
  then if Z.leb (vs_joined_at s) now
       then Some (mkVoiceSession (vs_id s) (vs_channel_id s) (vs_user_id s)
                                 (vs_joined_at s) (Some now))
       else None
  else Some s.

Fixpoint close_user_sessions (userId : string) (now : Z) (rows : list voice_session)
  : option (list voice_session) :=
  match rows with
  | [] => Some []
  | s :: rest =>
      match close_user_open userId now s, close_user_sessions userId now rest with
      | Some s', Some rest' => Some (s' :: rest')
      | _, _ => None
      end
  end.

(** The "disconnect" handler, lines 288-320. When the UPDATE is
    rejected the async handler stops there and nothing else changes.
    The boolean says whether "user:offline" is broadcast. *)
Definition disconnect_handler (st : socket_state) (socketId : string) (now : Z)
  : bool * socket_state :=
  match userSessions st !! socketId with
  | None => (false, st)
  | Some session =>
      match close_user_sessions (us_userId session) now (voice_sessions (vdb st)) with
      | None => (false, st)
      | Some rows =>
          let d := mkVoiceDb (channels (vdb st)) (users (vdb st)) rows
                             (next_session_id (vdb st)) in
          let (reg', offline) :=
            presence_disconnect (serverOnlineUsers st) (us_serverId session) (us_userId session) in
          (offline,
           mkSocketState (delete socketId (userSessions st)) reg'
                         (server_memberships st) d (messages st) (next_message_id st))
      end
  end.

(** "voice:join" and "voice:leave" of a socket. *)
Definition voice_join_handler (st : socket_state) (socketId : string) (channelId now : Z)
  : voice_reply * socket_state :=
  let (r, d) := voice_join (vdb st) (userSessions st !! socketId) channelId now in
  (r, with_vdb st d).

Definition voice_leave_handler (st : socket_state) (socketId : string) (channelId now : Z)
  : voice_reply * socket_state :=
  let (r, d) := voice_leave (vdb st) (userSessions st !! socketId) channelId now in
  (r, with_vdb st d).

Inductive message_reply :=
| MsgUnauthorized
| MsgInvalid
| MsgForbidden
| MsgError
| MsgSent (messageId : Z) (content : string).

(** The "message:send" handler, lines 126-176. [content] is [None] when
    it is not a string. The insert checks the foreign key on user_id and
    the content CHECK; the channel was just found. *)
Definition message_send (st : socket_state) (socketId : string) (channelId : Z)
    (content : option string) : message_reply * socket_state :=
  match userSessions st !! socketId with
  | None => (MsgUnauthorized, st)
  | Some session =>
      match content with
      | None => (MsgInvalid, st)
      | Some text =>
          if String.eqb (js_trim text) EmptyString then (MsgInvalid, st)
          else if negb (existsb (fun c => Z.eqb (ch_id c) channelId
                                          && Z.eqb (ch_server_id c) (us_serverId session))
                                (channels (vdb st)))
          then (MsgForbidden, st)
          else
            let row := mkMessage (next_message_id st) channelId (us_userId session) (js_trim text) in
            if negb (existsb (String.eqb (us_userId session)) (users (vdb st)))
               || negb (messages_content_nonempty (msg_content row))
            then (MsgError, st)
            else
              (MsgSent (next_message_id st) (js_trim text),
               mkSocketState (userSessions st) (serverOnlineUsers st) (server_memberships st)
                             (vdb st) (messages st ++ [row]) (next_message_id st + 1))
      end
  end.


Inductive channel_reply :=
| ChannelBadRequest
| ChannelNameRequired
| ChannelTypeInvalid
| ChannelCreated (ch : channel) (name : string).

(** POST /servers/:serverId/channels (src/routes/servers.ts, lines
    80-130), after its middleware; [newId] is the next channel id and
    [name] is [None] when it is not a string. *)
Definition create_channel (d : voice_db) (serverId : option Z) (name : option string)
    (type : string) (newId : Z) : channel_reply * voice_db :=
  match serverId with
  | None => (ChannelBadRequest, d)
  | Some sid =>
      match name with
      | None => (ChannelNameRequired, d)
      | Some nm =>
          if String.eqb (js_trim nm) EmptyString then (ChannelNameRequired, d)
          else if negb (String.eqb type "text" || String.eqb type "voice")
          then (ChannelTypeInvalid, d)
          else
            let ch := mkChannel newId sid type in
            (ChannelCreated ch (js_trim nm),
             mkVoiceDb (channels d ++ [ch]) (users d) (voice_sessions d) (next_session_id d))
      end
  end.

(** Sockets of server [r] authenticated as [u]. *)
Definition session_count (sessions : gmap string UserSession) (r : Z) (u : string) : nat :=
  size (filter (fun kv : string * UserSession =>
                  us_userId (snd kv) = u /\ us_serverId (snd kv) = r) sessions).

Definition count_entry (n : nat) : option Z :=
  if Nat.eqb n 0 then None else Some (Z.of_nat n).

(** The registry counts, for each (server, user), the sockets
    authenticated as that user on that server. *)
Definition socket_inv (st : socket_state) : Prop :=
  registry_ok (serverOnlineUsers st) /\
  forall r u, presence_entry (serverOnlineUsers st) r u =
              count_entry (session_count (userSessions st) r u).

(** Every authenticated socket is counted in the registry: for each
    (server, user), the registry holds at least as many connections as
    there are sockets authenticated as that user on that server. *)
Definition socket_inv_le (st : socket_state) : Prop :=
  registry_ok (serverOnlineUsers st) /\
  forall r u, Z.of_nat (session_count (userSessions st) r u) <=
              default 0 (presence_entry (serverOnlineUsers st) r u).

(** The events the handlers react to, on one server process. *)
Inductive socket_event :=
| SAuth (socketId userIdStr : string) (serverIdNum : option Z)
| SDisconnect (socketId : string) (now : Z)
| SVoiceJoin (socketId : string) (channelId now : Z)
| SVoiceLeave (socketId : string) (channelId now : Z)
| SMessage (socketId : string) (channelId : Z) (content : option string).

Definition socket_step (st : socket_state) (e : socket_event) : socket_state :=
  match e with
  | SAuth sid u srv => snd (auth_handler st sid u srv)
  | SDisconnect sid now => snd (disconnect_handler st sid now)
  | SVoiceJoin sid c now => snd (voice_join_handler st sid c now)
  | SVoiceLeave sid c now => snd (voice_leave_handler st sid c now)
  | SMessage sid c content => snd (message_send st sid c content)
  end.

Definition run_sockets (st : socket_state) (evs : list socket_event) : socket_state :=
  fold_left socket_step evs st.

(** No "auth" arrives on a socket that already has a session. *)
Fixpoint no_reauth (st : socket_state) (evs : list socket_event) : bool :=
  match evs with
  | [] => true
  | e :: rest =>
      (match e with
       | SAuth sid _ _ => match userSessions st !! sid with None => true | Some _ => false end
       | _ => true
       end) && no_reauth (socket_step st e) rest
  end.

Definition socket_run_example : list socket_event :=
  [SAuth "s1" "p" (Some 1); SAuth "s2" "p" (Some 1); SAuth "s3" "q" (Some 1);
   SVoiceJoin "s1" 5 10; SMessage "s3" 5 (Some " hi "); SDisconnect "s1" 20].

Definition socket_run_reauth : list socket_event :=
  [SAuth "s1" "p" (Some 1); SAuth "s1" "p" (Some 1); SAuth "s2" "p" (Some 1);
   SDisconnect "s1" 20].

Definition socket_run_example_voice : list socket_event :=
  [SAuth "s1" "p" (Some 1); SAuth "s2" "p" (Some 1); SVoiceJoin "s1" 5 10; SVoiceJoin "s2" 5 12].

Definition empty_state : socket_state :=
  mkSocketState ∅ ∅ [(1, "p"); (1, "q")] voice_server [] 1.

(** Registry entry of a user after one of its sockets disconnects. *)
Definition disconnect_entry (e : option Z) : option Z :=
  match e with
  | Some c => if Z.eqb (Z.max 0 (c - 1)) 0 then None else Some (Z.max 0 (c - 1))
  | None => None
  end.

End Sockets.

(** ** Facts about the operation log *)

Module DawFacts.
Import Daw DawScenarios.

(** *** Ranges of versions *)

Lemma zrange_S (c : Z) (n : nat) :
  zrange c (S n) = (c + 1) :: zrange (c + 1) n.
Proof.
  unfold zrange. cbn [seq map]. f_equal; [lia |].
  rewrite <- seq_shift, map_map. apply map_ext. intros k. lia.
Qed.

Lemma zrange_app (c : Z) (a b : nat) :
  zrange c (a + b) = zrange c a ++ zrange (c + Z.of_nat a) b.
Proof.
  revert c. induction a as [| a IH]; intros c.
  - change (zrange c 0) with (@nil Z). cbn [Nat.add app]. f_equal. lia.
  - rewrite Nat.add_succ_l, !zrange_S, IH. cbn [app].
    replace (c + 1 + Z.of_nat a) with (c + Z.of_nat (S a)) by lia. reflexivity.
Qed.

Lemma zrange_lt (c : Z) (n : nat) (v : Z) : In v (zrange c n) -> c < v.
Proof.
  unfold zrange. intros (k & <- & _)%in_map_iff. lia.
Qed.

Lemma zrange_in (c : Z) (n : nat) (v : Z) :
  In v (zrange c n) <-> c + 1 <= v <= c + Z.of_nat n.
Proof.
  unfold zrange. rewrite in_map_iff. split.
  - intros (k & <- & Hk%in_seq). lia.
  - intros Hv. exists (Z.to_nat (v - c - 1)). split; [lia |].
    apply in_seq. lia.
Qed.

Lemma zrange_NoDup (c : Z) (n : nat) : NoDup (zrange c n).
Proof.
  revert c. induction n as [| n IH]; intros c; [constructor |].
  rewrite zrange_S. constructor; [| apply IH].
  intros Hin%list_elem_of_In%zrange_lt. lia.
Qed.

(** *** The MAX aggregate *)

Lemma max_version_fold (p : Z) (rows : list project_op) :
  max_version p rows = fold_left max_step (versions_of p rows) None.
Proof.
  unfold max_version, versions_of. generalize (@None Z) as acc.
  induction rows as [| r rows IH]; intros acc; [reflexivity |].
  cbn. destruct (Z.eqb (po_project_id r) p); cbn; apply IH.
Qed.

Lemma fold_max_step_some (l : list Z) (a : Z) :
  exists m, fold_left max_step l (Some a) = Some m /\ a <= m /\
            (forall v, In v l -> v <= m).
Proof.
  revert a. induction l as [| x l IH]; intros a.
  - exists a. cbn. split; [done | split; [lia | done]].
  - cbn. destruct (IH (Z.max a x)) as (m & Hm & Ha & Hl).
    exists m. split; [done |]. split; [lia |].
    intros v [<- | Hv]; [lia | auto].
Qed.

Lemma max_version_bound (p : Z) (rows : list project_op) (v : Z) :
  In v (versions_of p rows) ->
  v <= reread_version_of (max_version p rows).
Proof.
  rewrite max_version_fold. destruct (versions_of p rows) as [| x l]; [done |].
  intros Hv. cbn. destruct (fold_max_step_some l x) as (m & -> & Hx & Hl).
  destruct Hv as [<- | Hv]; cbn; auto.
Qed.

Lemma max_version_zseq (p : Z) (rows : list project_op) (V : Z) :
  0 <= V -> versions_of p rows = zseq V ->
  max_version p rows = if Z.eqb V 0 then None else Some V.
Proof.
  intros HV Hrows. rewrite max_version_fold, Hrows. unfold zseq.
  remember (Z.to_nat V) as n eqn:Hn. assert (V = Z.of_nat n) as -> by lia.
  clear. induction n as [| n IH]; [reflexivity |].
  replace (S n) with (n + 1)%nat by lia.
  rewrite zrange_app, fold_left_app, IH.
  rewrite (proj2 (Z.eqb_neq (Z.of_nat (n + 1)) 0)) by lia.
  destruct (Z.eqb_spec (Z.of_nat n) 0) as [H0 | H0];
    cbn [zrange seq map fold_left max_step]; f_equal; lia.
Qed.

(** *** The rows of a batch *)

Lemma ops_to_insert_cons (p c : Z) (op : DawOp) (ops : list DawOp) :
  ops_to_insert p c (op :: ops) = mkProjectOp p (c + 1) op :: ops_to_insert p (c + 1) ops.
Proof.
  unfold ops_to_insert. rewrite imap_cons. f_equal.
  - f_equal. lia.
  - apply imap_ext. intros i x _. cbn. f_equal. lia.
Qed.

Lemma length_ops_to_insert (p c : Z) (ops : list DawOp) :
  length (ops_to_insert p c ops) = length ops.
Proof. apply length_imap. Qed.

Lemma ops_to_insert_rows (p c : Z) (ops : list DawOp) (r : project_op) :
  In r (ops_to_insert p c ops) ->
  po_project_id r = p /\ In (po_version_int r) (zrange c (length ops)).
Proof.
  revert c. induction ops as [| op ops IH]; intros c; [done |].
  rewrite ops_to_insert_cons. cbn [length]. rewrite zrange_S.
  intros [<- | Hr]; cbn; [auto |].
  destruct (IH (c + 1) Hr) as [Hp Hv]. auto.
Qed.

Lemma NoDup_keys_ops_to_insert (p c : Z) (ops : list DawOp) :
  NoDup (map op_key (ops_to_insert p c ops)).
Proof.
  revert c. induction ops as [| op ops IH]; intros c; [constructor |].
  rewrite ops_to_insert_cons. cbn. constructor; [| apply IH].
  intros (r & Hk & Hr)%list_elem_of_In%in_map_iff.
  apply ops_to_insert_rows in Hr as [_ Hv%zrange_lt].
  unfold op_key in Hk. cbn in Hk. injection Hk. lia.
Qed.

Lemma versions_of_app (p : Z) (l1 l2 : list project_op) :
  versions_of p (l1 ++ l2) = versions_of p l1 ++ versions_of p l2.
Proof. unfold versions_of. by rewrite List.filter_app, map_app. Qed.

Lemma versions_ops_to_insert (p c : Z) (ops : list DawOp) :
  versions_of p (ops_to_insert p c ops) = zrange c (length ops).
Proof.
  revert c. induction ops as [| op ops IH]; intros c; [done |].
  rewrite ops_to_insert_cons. cbn [length]. rewrite zrange_S.
  unfold versions_of in *. cbn.
  rewrite Z.eqb_refl. cbn. f_equal. apply IH.
Qed.

Lemma versions_ops_to_insert_other (p q c : Z) (ops : list DawOp) :
  q <> p -> versions_of p (ops_to_insert q c ops) = [].
Proof.
  intros Hne. revert c. induction ops as [| op ops IH]; intros c; [done |].
  rewrite ops_to_insert_cons. unfold versions_of in *. cbn.
  rewrite (proj2 (Z.eqb_neq q p) Hne). apply IH.
Qed.

(** *** The unique index and the atomic insert *)

Lemma conflicts_spec (r : project_op) (table : list project_op) :
  conflicts r table = true <->
  In (po_version_int r) (versions_of (po_project_id r) table).
Proof.
  unfold conflicts, versions_of. rewrite existsb_exists, in_map_iff.
  split.
  - intros (r' & Hin & Hb). apply andb_prop in Hb as [H1 H2].
    apply Z.eqb_eq in H1, H2. exists r'. split; [done |].
    apply filter_In. split; [done |]. by apply Z.eqb_eq.
  - intros (r' & Hv & Hin). apply filter_In in Hin as [Hin Hp].
    exists r'. split; [done |]. apply andb_true_intro.
    split; apply Z.eqb_eq; [by apply Z.eqb_eq | done].
Qed.

Lemma insert_rows_app (table rows t : list project_op) :
  insert_rows table rows = Some t -> t = table ++ rows.
Proof.
  revert table. induction rows as [| r rows IH]; intros table; cbn.
  - intros [= <-]. by rewrite app_nil_r.
  - destruct (conflicts r table); [done |].
    intros ->%IH. by rewrite <- app_assoc.
Qed.

Lemma versions_of_single (p : Z) (r : project_op) (v : Z) :
  In v (versions_of p [r]) -> po_project_id r = p /\ v = po_version_int r.
Proof.
  unfold versions_of. cbn. destruct (Z.eqb_spec (po_project_id r) p); cbn.
  - intros [<- | []]. done.
  - done.
Qed.

Lemma insert_rows_ok (table rows : list project_op) :
  (forall r, In r rows -> ~ In (po_version_int r) (versions_of (po_project_id r) table)) ->
  NoDup (map op_key rows) ->
  insert_rows table rows = Some (table ++ rows).
Proof.
  revert table. induction rows as [| r rows IH]; intros table Hfresh Hnd; cbn.
  - by rewrite app_nil_r.
  - destruct (conflicts r table) eqn:Hc.
    { exfalso. apply conflicts_spec in Hc. by apply (Hfresh r); [left |]. }
    cbn in Hnd. apply NoDup_cons in Hnd as [Hr Hnd].
    rewrite IH; [by rewrite <- app_assoc | | done].
    intros r2 Hr2. rewrite versions_of_app. intros [Hv | Hv]%in_app_or.
    + by apply (Hfresh r2); [right |].
    + apply versions_of_single in Hv as [Hp Hv]. apply Hr.
      apply list_elem_of_In, in_map_iff. exists r2. split; [| done].
      unfold op_key. by rewrite Hp, Hv.
Qed.

Lemma insert_rows_fail (table rows : list project_op) (r0 : project_op) :
  In r0 rows -> In (po_version_int r0) (versions_of (po_project_id r0) table) ->
  insert_rows table rows = None.
Proof.
  revert table. induction rows as [| r rows IH]; intros table Hr0 Hv; [done |].
  cbn. destruct (conflicts r table) eqn:Hc; [done |].
  destruct Hr0 as [<- | Hr0].
  - apply conflicts_spec in Hv. congruence.
  - apply IH; [done |]. rewrite versions_of_app. apply in_or_app. by left.
Qed.

(** *** The handler *)

Lemma current_version_small (m : option Z) :
  reread_version_of m <= 1000000 -> current_version_of m = reread_version_of m.
Proof.
  destruct m as [v |]; cbn; [| done].
  intros Hv. destruct (Z.ltb_spec 1000000 v); lia.
Qed.

(** A submission either leaves the store as it is, or appends its whole
    batch and moves the snapshot pointer. *)
Lemma submit_shape (d : db) (now q : Z) (b : Q) (ops : list DawOp) :
  snd (submit d now q b ops) = d \/
  (ops <> [] /\
   insert_rows (project_ops d)
     (ops_to_insert q (current_version_of (max_version q (project_ops d))) ops) <> None /\
   snd (submit d now q b ops) =
     mkDb (projects d)
       (project_ops d ++
          ops_to_insert q (current_version_of (max_version q (project_ops d))) ops)
       (update_snapshot_version q
          (current_version_of (max_version q (project_ops d)) + Z.of_nat (length ops))
          now (project_snapshot d))).
Proof.
  unfold submit, submit_raced, submit_read.
  destruct (bool_decide (q ∈ projects d)); cbn; [| by left].
  destruct (Qle_bool b _); cbn; [| by left].
  destruct (Nat.eqb _ 0) eqn:Hlen; cbn; [by left |].
  unfold submit_write. destruct (insert_rows _ _) as [t |] eqn:Hins; cbn; [| by left].
  right. rewrite length_ops_to_insert in Hlen |- *. split; [| split].
  - intros ->. done.
  - cbn in Hins |- *. congruence.
  - by rewrite (insert_rows_app _ _ _ Hins).
Qed.

Lemma submit_applies (d : db) (now p : Z) (b : Q) (ops : list DawOp) :
  p ∈ projects d -> ops <> [] ->
  reread_version_of (max_version p (project_ops d)) <= 1000000 ->
  (b <= inject_Z (reread_version_of (max_version p (project_ops d))))%Q ->
  submit d now p b ops =
    (Applied (reread_version_of (max_version p (project_ops d)) + Z.of_nat (length ops))
             (Z.of_nat (length ops)),
     mkDb (projects d)
       (project_ops d ++ ops_to_insert p (reread_version_of (max_version p (project_ops d))) ops)
       (update_snapshot_version p
          (reread_version_of (max_version p (project_ops d)) + Z.of_nat (length ops))
          now (project_snapshot d))).
Proof.
  intros Hp Hops Hsmall Hb.
  unfold submit, submit_raced, submit_read.
  rewrite (current_version_small _ Hsmall).
  set (V := reread_version_of (max_version p (project_ops d))) in *.
  rewrite (bool_decide_eq_true_2 _ Hp). cbn.
  rewrite (proj2 (Qle_bool_iff _ _) Hb). cbn.
  rewrite length_ops_to_insert.
  destruct ops as [| op ops']; [done |]. cbn [length Nat.eqb].
  unfold submit_write. rewrite insert_rows_ok.
  - by rewrite length_ops_to_insert.
  - intros r Hr Hv. apply ops_to_insert_rows in Hr as [Hrp Hrv%zrange_lt].
    rewrite Hrp in Hv. apply max_version_bound in Hv. subst V. lia.
  - apply NoDup_keys_ops_to_insert.
Qed.

Lemma first_row_conflicts (p V : Z) (d : db) (op : DawOp) (ops : list DawOp) :
  versions_of p (project_ops d) = zseq V -> 1 <= V ->
  insert_rows (project_ops d) (ops_to_insert p 0 (op :: ops)) = None.
Proof.
  intros Hvers HV. apply (insert_rows_fail _ _ (mkProjectOp p 1 op)).
  - rewrite ops_to_insert_cons. by left.
  - cbn. rewrite Hvers. unfold zseq. apply zrange_in. lia.
Qed.

(** Past the bound the derived version is 0, and every submission leaves
    the store as it is. *)
Lemma submit_frozen (d : db) (now p V : Z) (b : Q) (ops : list DawOp) :
  p ∈ projects d -> versions_of p (project_ops d) = zseq V -> 1000000 < V ->
  submit d now p b ops =
    ((if Qle_bool b (inject_Z 0) then
        match ops with
        | [] => Applied 0 0
        | _ :: _ => VersionConflict msg_raced V b
        end
      else VersionConflict msg_ahead 0 b), d).
Proof.
  intros Hp Hvers HV.
  pose proof (max_version_zseq p (project_ops d) V ltac:(lia) Hvers) as Hmax.
  rewrite (proj2 (Z.eqb_neq V 0)) in Hmax by lia.
  unfold submit, submit_raced, submit_read.
  rewrite (bool_decide_eq_true_2 _ Hp), Hmax. cbn [negb current_version_of].
  rewrite (proj2 (Z.ltb_lt 1000000 V) HV).
  destruct (Qle_bool b (inject_Z 0)); cbn [negb]; [| done].
  rewrite length_ops_to_insert. destruct ops as [| op ops']; [done |].
  cbn [length Nat.eqb]. unfold submit_write.
  rewrite (first_row_conflicts p V d op ops' Hvers) by lia.
  by rewrite Hmax.
Qed.

Lemma current_version_contiguous (p : Z) (d : db) (V : Z) :
  versions_of p (project_ops d) = zseq V -> 0 <= V <= 1000000 ->
  current_version_of (max_version p (project_ops d)) = V.
Proof.
  intros Hvers HV. rewrite (max_version_zseq p _ V ltac:(lia) Hvers).
  destruct (Z.eqb_spec V 0) as [-> | _]; cbn; [done |].
  destruct (Z.ltb_spec 1000000 V); lia.
Qed.

Lemma submit_preserves_contiguous (d : db) (now q : Z) (b : Q)
    (ops : list DawOp) (p : Z) :
  contiguous_log p d -> contiguous_log p (snd (submit d now q b ops)).
Proof.
  intros Hinv.
  destruct (submit_shape d now q b ops) as [-> | (Hops & Hins & ->)]; [done |].
  destruct Hinv as (s & Hs & HV & Hvers).
  destruct (Z.eq_dec q p) as [-> | Hne].
  - set (V := snap_version_int s) in *.
    destruct (Z.ltb_spec 1000000 V) as [Hbig | Hsmall].
    { exfalso. rewrite (max_version_zseq p _ V HV Hvers) in Hins.
      rewrite (proj2 (Z.eqb_neq V 0)) in Hins by lia. cbn in Hins.
      rewrite (proj2 (Z.ltb_lt 1000000 V) Hbig) in Hins.
      destruct ops as [| op ops']; [done |].
      by rewrite (first_row_conflicts p V d op ops' Hvers) in Hins by lia. }
    rewrite (current_version_contiguous p d V Hvers) by lia.
    exists (mkSnapshot (snapshot_json s) (V + Z.of_nat (length ops)) now).
    cbn [project_snapshot project_ops snap_version_int].
    split; [| split; [lia |]].
    + unfold update_snapshot_version. rewrite Hs. apply lookup_insert_eq.
    + rewrite versions_of_app, Hvers, versions_ops_to_insert. unfold zseq.
      replace (Z.to_nat (V + Z.of_nat (length ops)))
        with (Z.to_nat V + length ops)%nat by lia.
      rewrite zrange_app. do 2 f_equal. lia.
  - exists s. cbn [project_snapshot project_ops]. split; [| split; [done |]].
    + unfold update_snapshot_version.
      destruct (project_snapshot d !! q); [| done].
      by rewrite lookup_insert_ne.
    + by rewrite versions_of_app, versions_ops_to_insert_other, app_nil_r.
Qed.

Lemma run_submits_contiguous (d : db) (reqs : list request) (p : Z) :
  contiguous_log p d -> contiguous_log p (run_submits d reqs).
Proof.
  revert d. induction reqs as [| [[[now q] b] ops] reqs IH]; intros d Hinv; cbn.
  - done.
  - apply IH. by apply submit_preserves_contiguous.
Qed.

(** *** Reachability of the large store *)

Lemma doc_big_reachable :
  doc_big = snd (submit doc_empty 0 7 0 (repeat (op_of "x") (Z.to_nat 1000001))).
Proof.
  assert (Hmax : max_version 7 (project_ops doc_empty) = None) by reflexivity.
  rewrite submit_applies; cbn [snd project_ops projects project_snapshot]; rewrite ?Hmax.
  - cbn [reread_version_of app]. rewrite repeat_length, Z2Nat.id by lia.
    unfold doc_big, doc_empty, update_snapshot_version.
    cbn [projects project_ops project_snapshot app].
    rewrite lookup_singleton_eq, insert_singleton_eq, Z.add_0_l. reflexivity.
  - set_solver.
  - destruct (Z.to_nat 1000001) eqn:E; [lia | done].
  - cbn. lia.
  - unfold Qle. cbn. lia.
Qed.

Lemma doc_big_versions : versions_of 7 (project_ops doc_big) = zseq 1000001.
Proof.
  unfold doc_big. cbn [project_ops]. by rewrite versions_ops_to_insert, repeat_length.
Qed.

Lemma doc_big_max : max_version 7 (project_ops doc_big) = Some 1000001.
Proof. by rewrite (max_version_zseq _ _ 1000001 ltac:(lia) doc_big_versions). Qed.

Lemma current_le_reread (m : option Z) :
  current_version_of m <= reread_version_of m.
Proof.
  destruct m as [v |]; cbn; [| lia].
  destruct (Z.ltb_spec 1000000 v); lia.
Qed.

Lemma current_version_big (m : option Z) :
  1000000 < reread_version_of m -> current_version_of m = 0.
Proof.
  destruct m as [v |]; cbn; [| lia].
  intros Hv. by rewrite (proj2 (Z.ltb_lt 1000000 v) Hv).
Qed.

Lemma submit_read_rows (d : db) (p : Z) (b : Q) (ops : list DawOp)
    (cur : Z) (rows : list project_op) :
  submit_read d p b ops = inr (cur, rows) ->
  cur = current_version_of (max_version p (project_ops d)) /\
  rows = ops_to_insert p cur ops.
Proof.
  unfold submit_read.
  destruct (bool_decide _); cbn; [| done].
  destruct (Qle_bool _ _); cbn; [| done].
  destruct (Nat.eqb _ 0); [done |]. by intros [= <- <-].
Qed.

End DawFacts.

(** ** The claims about the operation log *)

Module DawClaims.
Import Daw DawScenarios DawFacts.

(** C1: starting from a project whose operation log is empty and whose
    snapshot is at version 0, after any sequence of submissions (run one
    after the other, to this or any other project, accepted or not) the
    project's snapshot is at some version V and its stored operation
    versions are exactly 1..V, without duplicates. *)
Theorem daw_versions_contiguous (d : db) (reqs : list request) (p : Z)
    (s0 : snapshot) :
  versions_of p (project_ops d) = [] ->
  project_snapshot d !! p = Some s0 -> snap_version_int s0 = 0 ->
  exists s,
    project_snapshot (run_submits d reqs) !! p = Some s /\
    NoDup (versions_of p (project_ops (run_submits d reqs))) /\
    (forall v, v ∈ versions_of p (project_ops (run_submits d reqs)) <->
               1 <= v <= snap_version_int s).
Proof.
  intros Hlog Hs0 Hv0.
  assert (Hinv : contiguous_log p d).
  { exists s0. rewrite Hv0, Hlog. split; [done | split; [lia | done]]. }
  destruct (run_submits_contiguous d reqs p Hinv) as (s & Hs & HV & Hvers).
  exists s. rewrite Hvers. unfold zseq.
  split; [done | split; [apply zrange_NoDup |]].
  intros v. rewrite list_elem_of_In, zrange_in. lia.
Qed.

Lemma daw_versions_contiguous_witness :
  versions_of 7 (project_ops doc_empty) = [] /\
  project_snapshot doc_empty !! 7 = Some (mkSnapshot "{}" 0 0) /\
  exists s,
    project_snapshot (run_submits doc_empty race_requests) !! 7 = Some s /\
    NoDup (versions_of 7 (project_ops (run_submits doc_empty race_requests))) /\
    (forall v, v ∈ versions_of 7 (project_ops (run_submits doc_empty race_requests)) <->
               1 <= v <= snap_version_int s).
Proof.
  split; [reflexivity |]. split; [reflexivity |].
  apply (daw_versions_contiguous doc_empty race_requests 7 (mkSnapshot "{}" 0 0));
    reflexivity.
Defined.

(** C2, as stated, fails past the 1,000,000 bound: in the reachable
    store [doc_big] the true high-water mark is 1,000,001, a batch of one
    operation based on version 0 is not appended at 1,000,002, and the
    request is answered with a version conflict. *)
Lemma daw_submit_accepts_behind_counterexample :
  7 ∈ projects doc_big /\
  reread_version_of (max_version 7 (project_ops doc_big)) = 1000001 /\
  fst (submit doc_big 1 7 0 [op_of "y"]) = VersionConflict msg_raced 1000001 0 /\
  fst (submit doc_big 1 7 0 [op_of "y"]) <> Applied 1000002 1 /\
  snd (submit doc_big 1 7 0 [op_of "y"]) = doc_big.
Proof.
  assert (Hp : 7 ∈ projects doc_big) by (cbn; set_solver).
  rewrite (submit_frozen doc_big 1 7 1000001 0 [op_of "y"] Hp doc_big_versions)
    by lia.
  rewrite doc_big_max. cbn [fst snd reread_version_of Qle_bool].
  split; [exact Hp |]. split; [done |]. split; [done |]. split; [done |]. done.
Qed.

(** C2 (amended): on an existing project with high-water mark V (the
    largest stored version, 0 if none), a non-empty batch with
    baseVersion <= V is handled as follows. When V is at most 1,000,000
    it is accepted however far behind baseVersion is: it is appended as
    one block whose i-th operation gets version V+i, the snapshot row (if
    any) moves to V+len(ops), and the answer is newVersion = V+len(ops),
    appliedCount = len(ops). When the stored versions are exactly 1..V
    and V is above 1,000,000, the handler takes the current version to be
    0 and the batch is refused with a version conflict, the store left
    unchanged. *)
Theorem daw_submit_accepts_behind (d : db) (now p : Z) (b : Q)
    (ops : list DawOp) (V : Z) :
  p ∈ projects d -> ops <> [] ->
  V = reread_version_of (max_version p (project_ops d)) -> (b <= inject_Z V)%Q ->
  (V <= 1000000 ->
   fst (submit d now p b ops) =
     Applied (V + Z.of_nat (length ops)) (Z.of_nat (length ops)) /\
   project_ops (snd (submit d now p b ops)) = project_ops d ++ ops_to_insert p V ops /\
   versions_of p (ops_to_insert p V ops) = zrange V (length ops) /\
   (forall s, project_snapshot d !! p = Some s ->
      project_snapshot (snd (submit d now p b ops)) !! p =
        Some (mkSnapshot (snapshot_json s) (V + Z.of_nat (length ops)) now))) /\
  (versions_of p (project_ops d) = zseq V -> 1000000 < V ->
   snd (submit d now p b ops) = d /\
   exists msg v, fst (submit d now p b ops) = VersionConflict msg v b).
Proof.
  intros Hp Hops -> Hb. split.
  - intros Hsmall.
    rewrite (submit_applies d now p b ops Hp Hops Hsmall Hb). cbn [fst snd].
    split; [done | split; [done | split; [apply versions_ops_to_insert |]]].
    intros s Hs. cbn [project_snapshot]. unfold update_snapshot_version.
    rewrite Hs. apply lookup_insert_eq.
  - intros Hvers HV.
    rewrite (submit_frozen d now p _ b ops Hp Hvers HV). cbn [fst snd].
    split; [done |].
    destruct (Qle_bool b (inject_Z 0)); [| by eexists _, _].
    destruct ops as [| o ops']; [done |]. by eexists _, _.
Qed.

Lemma daw_submit_accepts_behind_witness :
  (7 ∈ projects doc_two /\ [op_of "C"] <> [] /\
   2 = reread_version_of (max_version 7 (project_ops doc_two)) /\
   (1 <= inject_Z 2)%Q /\ 2 <= 1000000) /\
  fst (submit doc_two 1 7 1 [op_of "C"]) = Applied (2 + 1) 1 /\
  (7 ∈ projects doc_big /\
   1000001 = reread_version_of (max_version 7 (project_ops doc_big)) /\
   (5 <= inject_Z 1000001)%Q /\ 1000000 < 1000001) /\
  snd (submit doc_big 1 7 5 [op_of "y"]) = doc_big.
Proof.
  assert (Hp : 7 ∈ projects doc_two) by (cbn; set_solver).
  assert (Hp' : 7 ∈ projects doc_big) by (cbn; set_solver).
  assert (Hb : (1 <= inject_Z 2)%Q) by (unfold Qle; cbn; lia).
  assert (Hb' : (5 <= inject_Z 1000001)%Q) by (unfold Qle; cbn; lia).
  assert (Hm : 1000001 = reread_version_of (max_version 7 (project_ops doc_big)))
    by (rewrite doc_big_max; reflexivity).
  split; [split; [exact Hp |]; split; [discriminate |]; split; [vm_compute; reflexivity |];
          split; [exact Hb | lia] |].
  split.
  { exact (proj1 (proj1 (daw_submit_accepts_behind doc_two 1 7 1 [op_of "C"] 2
                           Hp ltac:(discriminate) ltac:(vm_compute; reflexivity) Hb)
                   ltac:(lia))). }
  split; [split; [exact Hp' |]; split; [exact Hm |]; split; [exact Hb' | lia] |].
  exact (proj1 (proj2 (daw_submit_accepts_behind doc_big 1 7 5 [op_of "y"] 1000001
                         Hp' ltac:(discriminate) Hm Hb')
                  doc_big_versions ltac:(lia))).
Defined.

(** C3, as stated, fails past the 1,000,000 bound: in [doc_big] the
    true high-water mark is 1,000,001 and a request based on 1,000,002 is
    refused, but the version it reports is 0. *)
Lemma daw_submit_ahead_conflict_counterexample :
  reread_version_of (max_version 7 (project_ops doc_big)) = 1000001 /\
  (inject_Z 1000001 < 1000002)%Q /\
  submit doc_big 1 7 1000002 [op_of "y"] =
    (VersionConflict msg_ahead 0 1000002, doc_big).
Proof.
  assert (Hp : 7 ∈ projects doc_big) by (cbn; set_solver).
  rewrite (submit_frozen doc_big 1 7 1000001 1000002 [op_of "y"] Hp doc_big_versions)
    by lia.
  rewrite doc_big_max. split; [done |]. split; [unfold Qlt; cbn; lia |].
  reflexivity.
Qed.

(** C3 (amended): on an existing project, a request whose baseVersion is
    above the high-water mark V (largest stored version, 0 if none) is
    refused with a version conflict and the store is left as it is; the
    version it reports is the one the handler derived, which is V when V
    is at most 1,000,000 and 0 above that. *)
Theorem daw_submit_ahead_conflict (d : db) (now p : Z) (b : Q)
    (ops : list DawOp) :
  p ∈ projects d ->
  (inject_Z (reread_version_of (max_version p (project_ops d))) < b)%Q ->
  submit d now p b ops =
    (VersionConflict msg_ahead (current_version_of (max_version p (project_ops d))) b, d) /\
  (reread_version_of (max_version p (project_ops d)) <= 1000000 ->
   current_version_of (max_version p (project_ops d)) =
     reread_version_of (max_version p (project_ops d))) /\
  (1000000 < reread_version_of (max_version p (project_ops d)) ->
   current_version_of (max_version p (project_ops d)) = 0).
Proof.
  intros Hp Hb. split; [| split; [apply current_version_small | apply current_version_big]].
  unfold submit, submit_raced, submit_read.
  rewrite (bool_decide_eq_true_2 _ Hp). cbn [negb].
  destruct (Qle_bool b _) eqn:Hle; [| done].
  exfalso. apply Qle_bool_iff in Hle.
  apply (Qlt_not_le _ _ Hb). eapply Qle_trans; [exact Hle |].
  rewrite <- Zle_Qle. apply current_le_reread.
Qed.

Lemma daw_submit_ahead_conflict_witness :
  7 ∈ projects doc_empty /\
  (inject_Z (reread_version_of (max_version 7 (project_ops doc_empty))) < 1)%Q /\
  submit doc_empty 1 7 1 [op_of "A"] =
    (VersionConflict msg_ahead (current_version_of (max_version 7 (project_ops doc_empty))) 1,
     doc_empty).
Proof.
  assert (Hp : 7 ∈ projects doc_empty) by (cbn; set_solver).
  assert (Hb : (inject_Z (reread_version_of (max_version 7 (project_ops doc_empty))) < 1)%Q)
    by (unfold Qlt; cbn; lia).
  split; [exact Hp |]. split; [exact Hb |].
  exact (proj1 (daw_submit_ahead_conflict doc_empty 1 7 1 [op_of "A"] Hp Hb)).
Defined.

(** C4: when the insert of a submission meets a store in which another
    request already holds one of its (project, version) slots, the
    duplicate key is caught once: the batch is not written at all (the
    store is the one the insert met), the high-water mark is read again
    from that store, and the answer is a version conflict reporting it. *)
Theorem daw_duplicate_key_conflict (d_read d_write : db) (now p : Z) (b : Q)
    (ops : list DawOp) (cur : Z) (rows : list project_op) (r : project_op) :
  submit_read d_read p b ops = inr (cur, rows) ->
  In r rows ->
  In (po_version_int r) (versions_of (po_project_id r) (project_ops d_write)) ->
  rows = ops_to_insert p cur ops /\
  insert_rows (project_ops d_write) rows = None /\
  submit_raced d_read d_write now p b ops =
    (VersionConflict msg_raced (reread_version_of (max_version p (project_ops d_write))) b,
     d_write).
Proof.
  intros Hread Hr Htaken.
  assert (Hfail : insert_rows (project_ops d_write) rows = None)
    by exact (insert_rows_fail _ _ r Hr Htaken).
  split; [apply (submit_read_rows _ _ _ _ _ _ Hread) |]. split; [exact Hfail |].
  unfold submit_raced. rewrite Hread. unfold submit_write. by rewrite Hfail.
Qed.

Lemma daw_duplicate_key_conflict_witness :
  submit_read doc_empty 7 0 [op_of "C"] = inr (0, [mkProjectOp 7 1 (op_of "C")]) /\
  In (mkProjectOp 7 1 (op_of "C")) [mkProjectOp 7 1 (op_of "C")] /\
  In 1 (versions_of 7 (project_ops (snd (submit doc_empty 1 7 0 [op_of "A"; op_of "B"])))) /\
  submit_raced doc_empty (snd (submit doc_empty 1 7 0 [op_of "A"; op_of "B"])) 2 7 0
    [op_of "C"] =
    (VersionConflict msg_raced
       (reread_version_of (max_version 7 (project_ops
          (snd (submit doc_empty 1 7 0 [op_of "A"; op_of "B"]))))) 0,
     snd (submit doc_empty 1 7 0 [op_of "A"; op_of "B"])).
Proof.
  assert (Hread : submit_read doc_empty 7 0 [op_of "C"] =
                  inr (0, [mkProjectOp 7 1 (op_of "C")])) by reflexivity.
  assert (Hr : In (mkProjectOp 7 1 (op_of "C")) [mkProjectOp 7 1 (op_of "C")])
    by (left; reflexivity).
  assert (Ht : In 1 (versions_of 7 (project_ops
                 (snd (submit doc_empty 1 7 0 [op_of "A"; op_of "B"])))))
    by (vm_compute; left; reflexivity).
  split; [exact Hread |]. split; [exact Hr |]. split; [exact Ht |].
  exact (proj2 (proj2 (daw_duplicate_key_conflict doc_empty _ 2 7 0 [op_of "C"] 0 _ _
                         Hread Hr Ht))).
Defined.

(** C9, as stated, fails: an empty batch whose baseVersion is ahead of
    the store is refused with a version conflict, not a no-op success. *)
Lemma daw_empty_batch_counterexample :
  submit doc_empty 1 7 1 [] = (VersionConflict msg_ahead 0 1, doc_empty).
Proof. reflexivity. Qed.

(** C9 (amended): on an existing project an empty batch never writes
    anything; with baseVersion at most the derived current version (the
    high-water mark, or 0 above 1,000,000) it answers newVersion = that
    version and appliedCount = 0, otherwise a version conflict. *)
Theorem daw_empty_batch (d : db) (now p : Z) (b : Q) :
  p ∈ projects d ->
  snd (submit d now p b []) = d /\
  ((b <= inject_Z (current_version_of (max_version p (project_ops d))))%Q ->
   fst (submit d now p b []) =
     Applied (current_version_of (max_version p (project_ops d))) 0) /\
  ((inject_Z (current_version_of (max_version p (project_ops d))) < b)%Q ->
   fst (submit d now p b []) =
     VersionConflict msg_ahead (current_version_of (max_version p (project_ops d))) b) /\
  (reread_version_of (max_version p (project_ops d)) <= 1000000 ->
   current_version_of (max_version p (project_ops d)) =
     reread_version_of (max_version p (project_ops d))).
Proof.
  intros Hp. unfold submit, submit_raced, submit_read.
  rewrite (bool_decide_eq_true_2 _ Hp). cbn [negb].
  destruct (Qle_bool b _) eqn:Hle; cbn [negb fst snd].
  - split; [done |]. split; [done |]. split; [| apply current_version_small].
    intros Hlt. apply Qle_bool_iff in Hle. by apply Qlt_not_le in Hlt.
  - split; [done |]. split; [| split; [done | apply current_version_small]].
    intros Hle'. apply Qle_bool_iff in Hle'. congruence.
Qed.

Lemma daw_empty_batch_witness :
  7 ∈ projects doc_empty /\
  (0 <= inject_Z (current_version_of (max_version 7 (project_ops doc_empty))))%Q /\
  fst (submit doc_empty 1 7 0 []) =
    Applied (current_version_of (max_version 7 (project_ops doc_empty))) 0.
Proof.
  assert (Hp : 7 ∈ projects doc_empty) by (cbn; set_solver).
  assert (Hb : (0 <= inject_Z (current_version_of (max_version 7 (project_ops doc_empty))))%Q)
    by (unfold Qle; cbn; lia).
  split; [exact Hp |]. split; [exact Hb |].
  exact (proj1 (proj2 (daw_empty_batch doc_empty 1 7 0 Hp)) Hb).
Defined.

(** C10, as stated, fails: past the bound the derived version is 0, but
    no operation is then stored from version 1 on; in [doc_big] a batch
    based on version 0 meets the stored version 1, is refused, and the
    log stays as it is. *)
Lemma daw_version_bound_counterexample :
  current_version_of (max_version 7 (project_ops doc_big)) = 0 /\
  fst (submit doc_big 1 7 0 [op_of "y"]) = VersionConflict msg_raced 1000001 0 /\
  project_ops (snd (submit doc_big 1 7 0 [op_of "y"])) = project_ops doc_big /\
  project_ops (snd (submit doc_big 1 7 0 [op_of "y"])) <>
    project_ops doc_big ++ ops_to_insert 7 0 [op_of "y"].
Proof.
  assert (Hp : 7 ∈ projects doc_big) by (cbn; set_solver).
  rewrite (submit_frozen doc_big 1 7 1000001 0 [op_of "y"] Hp doc_big_versions)
    by lia.
  rewrite doc_big_max. cbn [fst snd current_version_of Z.ltb].
  split; [done |]. split; [done |]. split; [done |].
  intros Heq. apply (f_equal length) in Heq.
  rewrite length_app, length_ops_to_insert in Heq. cbn [length] in Heq. lia.
Qed.

(** C10 (amended): once the contiguous log 1..V of a project passes
    1,000,000 the derived current version is 0 and every submission
    leaves the store unchanged: baseVersion above 0 gives a version
    conflict reporting 0, an empty batch based at or below 0 answers
    newVersion 0 with appliedCount 0, and a non-empty batch based at or
    below 0 collides with the stored version 1 and gives a version
    conflict reporting V. No new version is assigned any more. *)
Theorem daw_version_bound_freezes (d : db) (now p V : Z) (b : Q)
    (ops : list DawOp) :
  p ∈ projects d -> versions_of p (project_ops d) = zseq V -> 1000000 < V ->
  current_version_of (max_version p (project_ops d)) = 0 /\
  snd (submit d now p b ops) = d /\
  ((inject_Z 0 < b)%Q -> fst (submit d now p b ops) = VersionConflict msg_ahead 0 b) /\
  ((b <= inject_Z 0)%Q -> ops = [] -> fst (submit d now p b ops) = Applied 0 0) /\
  ((b <= inject_Z 0)%Q -> ops <> [] ->
   fst (submit d now p b ops) = VersionConflict msg_raced V b).
Proof.
  intros Hp Hvers HV.
  split.
  { apply current_version_big.
    rewrite (max_version_zseq p _ V ltac:(lia) Hvers).
    rewrite (proj2 (Z.eqb_neq V 0)) by lia. cbn. lia. }
  rewrite (submit_frozen d now p V b ops Hp Hvers HV). cbn [fst snd].
  split; [done |].
  destruct (Qle_bool b (inject_Z 0)) eqn:Hle.
  - apply Qle_bool_iff in Hle. split.
    + intros Hlt. by apply Qlt_not_le in Hlt.
    + split; [by intros _ -> |]. intros _ Hops. by destruct ops.
  - split; [done |]. split; intros Hle'; apply Qle_bool_iff in Hle'; congruence.
Qed.

Lemma daw_version_bound_freezes_witness :
  7 ∈ projects doc_big /\ versions_of 7 (project_ops doc_big) = zseq 1000001 /\
  snd (submit doc_big 1 7 0 [op_of "y"]) = doc_big.
Proof.
  assert (Hp : 7 ∈ projects doc_big) by (cbn; set_solver).
  split; [exact Hp |]. split; [exact doc_big_versions |].
  exact (proj1 (proj2 (daw_version_bound_freezes doc_big 1 7 1000001 0 [op_of "y"]
                         Hp doc_big_versions ltac:(lia)))).
Defined.

End DawClaims.

(** ** Facts about the presence registry *)

Module PresenceFacts.
Import Presence.

Lemma server_map_counts (reg : gmap Z (gmap string Z)) (r : Z) (u : string) (c : Z) :
  registry_ok reg -> default ∅ (reg !! r) !! u = Some c -> 0 < c.
Proof.
  intros Hok. destruct (reg !! r) as [m |] eqn:Hr; cbn.
  - exact (proj2 (Hok r m Hr) u c).
  - by rewrite lookup_empty.
Qed.

Lemma prev_count_nonneg (reg : gmap Z (gmap string Z)) (r : Z) (u : string) :
  registry_ok reg -> 0 <= default 0 (default ∅ (reg !! r) !! u).
Proof.
  intros Hok. destruct (default ∅ (reg !! r) !! u) as [c |] eqn:Hc; cbn; [| lia].
  pose proof (server_map_counts reg r u c Hok Hc). lia.
Qed.

Lemma presence_connect_ok (reg : gmap Z (gmap string Z)) (r : Z) (u : string) :
  registry_ok reg -> registry_ok (fst (presence_connect reg r u)).
Proof.
  intros Hok r' m' Hl. cbn in Hl.
  apply lookup_insert_Some in Hl as [[<- <-] | [Hne Hl]]; [| exact (Hok _ _ Hl)].
  split; [apply insert_non_empty |].
  intros u' c Hc. apply lookup_insert_Some in Hc as [[<- <-] | [_ Hc]].
  - pose proof (prev_count_nonneg reg r u Hok). lia.
  - exact (server_map_counts reg r u' c Hok Hc).
Qed.

Lemma presence_disconnect_ok (reg : gmap Z (gmap string Z)) (r : Z) (u : string) :
  registry_ok reg -> registry_ok (fst (presence_disconnect reg r u)).
Proof.
  intros Hok. unfold presence_disconnect.
  destruct (reg !! r) as [m |] eqn:Hr; [| done].
  destruct (Hok r m Hr) as [_ Hpos].
  assert (Hm' : forall m' : gmap string Z,
            (forall u' c, m' !! u' = Some c -> 0 < c) ->
            registry_ok (if Nat.eqb (size m') 0 then delete r reg else <[r := m']> reg)).
  { intros m' Hm'pos r' m'' Hl.
    destruct (Nat.eqb_spec (size m') 0) as [Hz | Hnz].
    - apply lookup_delete_Some in Hl as [_ Hl]. exact (Hok _ _ Hl).
    - apply lookup_insert_Some in Hl as [[<- <-] | [_ Hl]]; [| exact (Hok _ _ Hl)].
      split; [by apply map_size_non_empty_iff | done]. }
  destruct (Z.eqb_spec (Z.max 0 (default 0 (m !! u) - 1)) 0) as [Hz | Hnz]; cbn [fst].
  - apply Hm'. intros u' c Hc. apply lookup_delete_Some in Hc as [_ Hc]. by apply (Hpos u').
  - apply Hm'. intros u' c Hc.
    apply lookup_insert_Some in Hc as [[<- <-] | [_ Hc]]; [lia | by apply (Hpos u')].
Qed.

Lemma registry_ok_empty : registry_ok ∅.
Proof. intros r m Hl. by rewrite lookup_empty in Hl. Qed.

Lemma run_presence_ok (reg : gmap Z (gmap string Z)) (evs : list presence_event) :
  registry_ok reg -> registry_ok (run_presence reg evs).
Proof.
  unfold run_presence. revert reg.
  induction evs as [| [r u | r u] evs IH]; intros reg Hok; cbn; [done | |].
  - apply IH. by apply presence_connect_ok.
  - apply IH. by apply presence_disconnect_ok.
Qed.

Lemma online_users_spec (reg : gmap Z (gmap string Z)) (r : Z) (u : string) :
  In u (getOnlineUsersForServer reg r) <-> is_Some (presence_entry reg r u).
Proof.
  unfold getOnlineUsersForServer, presence_entry.
  destruct (reg !! r) as [m |]; cbn.
  - rewrite in_map_iff. split.
    + intros ([u' c] & <- & Hin). cbn.
      apply list_elem_of_In, elem_of_map_to_list in Hin. by exists c.
    + intros [c Hc]. exists (u, c). split; [done |].
      apply list_elem_of_In, elem_of_map_to_list. done.
  - split; [done |]. by intros [? ?].
Qed.

End PresenceFacts.

(** ** The claims about the presence registry *)

Module PresenceClaims.
Import Presence PresenceFacts.

Lemma presence_entry_default (reg : gmap Z (gmap string Z)) (r : Z) (u : string) :
  presence_entry reg r u = default ∅ (reg !! r) !! u.
Proof.
  unfold presence_entry. destruct (reg !! r); cbn; [done |]. by rewrite lookup_empty.
Qed.

Lemma presence_entry_connect (reg : gmap Z (gmap string Z)) (r : Z) (u : string) :
  presence_entry (fst (presence_connect reg r u)) r u =
    Some (default 0 (presence_entry reg r u) + 1).
Proof.
  unfold presence_entry at 1. cbn. rewrite lookup_insert_eq. cbn.
  rewrite lookup_insert_eq. by rewrite presence_entry_default.
Qed.

(** C5: connecting a (server, user) pair raises its count by one,
    creating it at 1 when absent; the "user:online" broadcast fires iff
    the count went from 0 to 1, so of two connects in a row only the
    first one fires it. *)
Theorem presence_connect_transition (reg : gmap Z (gmap string Z)) (r : Z) (u : string) :
  registry_ok reg ->
  presence_entry (fst (presence_connect reg r u)) r u =
    Some (default 0 (presence_entry reg r u) + 1) /\
  (presence_entry reg r u = None ->
   presence_entry (fst (presence_connect reg r u)) r u = Some 1) /\
  (snd (presence_connect reg r u) = true <->
   default 0 (presence_entry reg r u) = 0 /\
   presence_entry (fst (presence_connect reg r u)) r u = Some 1) /\
  snd (presence_connect (fst (presence_connect reg r u)) r u) = false.
Proof.
  intros Hok.
  pose proof (prev_count_nonneg reg r u Hok) as Hnn.
  rewrite <- presence_entry_default in Hnn.
  split; [apply presence_entry_connect |].
  split; [intros Hn; rewrite presence_entry_connect, Hn; done |].
  split.
  - rewrite presence_entry_connect. cbn [snd presence_connect].
    rewrite <- presence_entry_default, Z.eqb_eq. split.
    + intros Hz. rewrite Hz. done.
    + by intros [Hz _].
  - cbn [snd presence_connect]. rewrite <- presence_entry_default.
    rewrite presence_entry_connect. cbn. apply Z.eqb_neq. lia.
Qed.

Lemma presence_connect_transition_witness :
  registry_ok ∅ /\ snd (presence_connect ∅ 1 "alice") = true /\
  snd (presence_connect (fst (presence_connect ∅ 1 "alice")) 1 "alice") = false.
Proof.
  assert (Hok : registry_ok ∅) by (intros r m Hl; by rewrite lookup_empty in Hl).
  split; [exact Hok |]. split; [reflexivity |].
  exact (proj2 (proj2 (proj2 (presence_connect_transition ∅ 1 "alice" Hok)))).
Defined.

(* Disconnecting lowers the pair's count by one; at 0 the entry is
   removed (with the server map once it is empty) and the offline
   broadcast fires, above 0 it is stored and nothing fires. For a pair
   without an entry the registry is unchanged; the offline broadcast
   then fires iff the server has an entry for someone else. *)
Lemma presence_disconnect_entry_step (reg : gmap Z (gmap string Z)) (r : Z) (u : string) :
  registry_ok reg ->
  (forall c, presence_entry reg r u = Some c -> 2 <= c ->
   presence_entry (fst (presence_disconnect reg r u)) r u = Some (c - 1) /\
   snd (presence_disconnect reg r u) = false) /\
  (presence_entry reg r u = Some 1 ->
   presence_entry (fst (presence_disconnect reg r u)) r u = None /\
   snd (presence_disconnect reg r u) = true) /\
  (presence_entry reg r u = None ->
   fst (presence_disconnect reg r u) = reg /\
   snd (presence_disconnect reg r u) = bool_decide (is_Some (reg !! r))).
Proof.
  intros Hok. unfold presence_entry, presence_disconnect.
  destruct (reg !! r) as [m |] eqn:Hr; cbn [mbind option_bind].
  2:{ split; [done |]. split; [done |]. intros _. split; [done |].
       symmetry. apply bool_decide_eq_false_2. by intros [? ?]. }
  destruct (Hok r m Hr) as [Hne _].
  split; [| split].
  - intros c Hc H2. cbn in Hc. rewrite Hc. cbn [default from_option]. unfold id.
    rewrite Z.max_r by lia. rewrite (proj2 (Z.eqb_neq (c - 1) 0)) by lia.
    destruct (Nat.eqb_spec (size (<[u := c - 1]> m)) 0) as [Hz | _].
    { exfalso. apply map_size_empty_iff in Hz. by apply insert_non_empty in Hz. }
    cbn. rewrite lookup_insert_eq. cbn. by rewrite lookup_insert_eq.
  - intros Hc. cbn in Hc. rewrite Hc. cbn [default from_option]. unfold id.
    replace (Z.max 0 (1 - 1)) with 0 by lia. cbn [Z.eqb].
    destruct (Nat.eqb (size (delete u m)) 0); cbn.
    + by rewrite lookup_delete_eq.
    + rewrite lookup_insert_eq. cbn. by rewrite lookup_delete_eq.
  - intros Hn. cbn in Hn. rewrite Hn. cbn [default from_option].
    replace (Z.max 0 (0 - 1)) with 0 by lia. cbn [Z.eqb].
    rewrite (delete_id m u Hn).
    destruct (Nat.eqb_spec (size m) 0) as [Hz | _].
    { exfalso. by apply map_size_empty_iff in Hz. }
    cbn. split; [by apply insert_id | done].
Qed.

(** C7: after any sequence of connects and disconnects from the empty
    registry, no entry holds a count of 0 (a count of 0 means the entry is
    absent), and a user is listed online for a server iff the pair has an
    entry. *)
Theorem presence_no_zero_entries (evs : list presence_event) :
  (forall r u c, presence_entry (run_presence ∅ evs) r u = Some c -> 0 < c) /\
  (forall r u, default 0 (presence_entry (run_presence ∅ evs) r u) = 0 ->
               presence_entry (run_presence ∅ evs) r u = None) /\
  (forall r u, In u (getOnlineUsersForServer (run_presence ∅ evs) r) <->
               is_Some (presence_entry (run_presence ∅ evs) r u)).
Proof.
  pose proof (run_presence_ok ∅ evs registry_ok_empty) as Hok.
  assert (Hpos : forall r u c, presence_entry (run_presence ∅ evs) r u = Some c -> 0 < c).
  { intros r u c. rewrite presence_entry_default. apply server_map_counts, Hok. }
  split; [exact Hpos |]. split; [| apply online_users_spec].
  intros r u Hz. destruct (presence_entry _ r u) as [c |] eqn:He; [| done].
  cbn in Hz. specialize (Hpos r u c He). lia.
Qed.

End PresenceClaims.

Module VoiceFacts.
Import Voice.

Definition open_row_of (userId : string) (channelId : Z) (s : voice_session) : Prop :=
  vs_user_id s = userId /\ vs_channel_id s = channelId /\ vs_left_at s = None.

Lemma participants_spec (d : voice_db) (channelId : Z) (x : string) :
  In x (participants d channelId) ->
  exists s, In s (voice_sessions d) /\ open_row_of x channelId s.
Proof.
  unfold participants. intros Hin. apply in_flat_map in Hin as [s [Hs Hx]].
  destruct (Z.eqb (vs_channel_id s) channelId) eqn:Hc; [| contradiction].
  destruct (is_open s) eqn:Ho; [| contradiction].
  destruct (existsb _ _); [| contradiction].
  destruct Hx as [<- | []].
  exists s. split; [exact Hs |].
  apply Z.eqb_eq in Hc. unfold is_open in Ho.
  destruct (vs_left_at s) eqn:Hl; [discriminate |].
  unfold open_row_of. auto.
Qed.

Lemma close_open_ok (userId : string) (channelId now : Z) (s : voice_session) :
  vs_joined_at s <= now ->
  exists s', close_open userId channelId now s = Some s' /\
             ~ open_row_of userId channelId s'.
Proof.
  intros Hle. unfold close_open.
  destruct (String.eqb (vs_user_id s) userId && Z.eqb (vs_channel_id s) channelId
            && is_open s) eqn:Hm.
  - rewrite (proj2 (Z.leb_le _ _) Hle).
    eexists. split; [reflexivity |]. intros (_ & _ & H). discriminate.
  - exists s. split; [reflexivity |]. intros (Hu & Hc & Ho).
    apply String.eqb_eq in Hu. apply Z.eqb_eq in Hc.
    rewrite Hu, Hc in Hm. unfold is_open in Hm. rewrite Ho in Hm. discriminate.
Qed.

Lemma close_sessions_ok (userId : string) (channelId now : Z) (rows : list voice_session) :
  Forall (fun s => vs_joined_at s <= now) rows ->
  exists rows', close_sessions userId channelId now rows = Some rows' /\
                Forall (fun s => ~ open_row_of userId channelId s) rows'.
Proof.
  induction rows as [| s rest IH]; intros Hall.
  - exists []. split; [reflexivity | constructor].
  - inversion Hall as [| ? ? Hs Hrest]; subst.
    destruct (close_open_ok userId channelId now s Hs) as [s' [Hs' Hn]].
    destruct (IH Hrest) as [rest' [Hr' Hn']].
    exists (s' :: rest'). cbn. rewrite Hs', Hr'. split; [reflexivity |].
    constructor; assumption.
Qed.

Lemma voice_join_times (d : voice_db) (session : option UserSession) (channelId now t : Z) :
  now <= t ->
  Forall (fun s => vs_joined_at s <= t) (voice_sessions d) ->
  Forall (fun s => vs_joined_at s <= t) (voice_sessions (snd (voice_join d session channelId now))).
Proof.
  intros Hnow Hall. unfold voice_join.
  destruct session as [sess |]; [| exact Hall].
  destruct (Z.eqb channelId 0); [exact Hall |].
  destruct (negb (existsb _ (channels d))); [exact Hall |].
  destruct (negb (existsb _ (users d))); [exact Hall |].
  cbn. apply Forall_app. split; [exact Hall |]. constructor; [exact Hnow | constructor].
Qed.

Lemma voice_leave_closes (d : voice_db) (sess : UserSession) (channelId now : Z) :
  channelId <> 0 ->
  Forall (fun s => vs_joined_at s <= now) (voice_sessions d) ->
  let (r, d') := voice_leave d (Some sess) channelId now in
  r = Left (participants d' channelId) /\
  Forall (fun s => ~ open_row_of (us_userId sess) channelId s) (voice_sessions d') /\
  ~ In (us_userId sess) (participants d' channelId).
Proof.
  intros Hc Hall. unfold voice_leave.
  rewrite (proj2 (Z.eqb_neq _ _) Hc).
  destruct (close_sessions_ok (us_userId sess) channelId now _ Hall) as [rows [Hrows Hno]].
  rewrite Hrows. cbn [voice_sessions]. split; [reflexivity |]. split; [exact Hno |].
  intros Hin. apply participants_spec in Hin as [s [Hs Hopen]].
  cbn in Hs. rewrite List.Forall_forall in Hno. exact (Hno s Hs Hopen).
Qed.

End VoiceFacts.

Module VoiceClaims.
Import Voice VoiceFacts.

(** C8: a user who joins voice channel c twice (two open rows) and then
    leaves once, at a time no earlier than either join or any stored
    join, gets a [Left] reply; afterwards no open row of the pair is
    left and the roster of c does not list the user. *)
Theorem voice_double_join_single_leave (d : voice_db) (sess : UserSession)
    (channelId t1 t2 t3 : Z) :
  channelId <> 0 -> t1 <= t3 -> t2 <= t3 ->
  Forall (fun s => vs_joined_at s <= t3) (voice_sessions d) ->
  let d1 := snd (voice_join d (Some sess) channelId t1) in
  let d2 := snd (voice_join d1 (Some sess) channelId t2) in
  let (r, d3) := voice_leave d2 (Some sess) channelId t3 in
  r = Left (participants d3 channelId) /\
  Forall (fun s => ~ open_row_of (us_userId sess) channelId s) (voice_sessions d3) /\
  ~ In (us_userId sess) (participants d3 channelId).
Proof.
  intros Hc H1 H2 Hall. cbv zeta.
  apply voice_leave_closes; [exact Hc |].
  apply voice_join_times; [exact H2 |].
  apply voice_join_times; [exact H1 | exact Hall].
Qed.

(** On the voice server, after two joins of "p" at times 10 and 20 the
    roster lists "p" twice; the single leave at 30 removes both. *)
Lemma voice_double_join_single_leave_witness :
  participants (snd (voice_join (snd (voice_join voice_server (Some session_p) 5 10))
                      (Some session_p) 5 20)) 5 = ["p"; "p"] /\
  (let d1 := snd (voice_join voice_server (Some session_p) 5 10) in
   let d2 := snd (voice_join d1 (Some session_p) 5 20) in
   let (r, d3) := voice_leave d2 (Some session_p) 5 30 in
   r = Left (participants d3 5) /\
   Forall (fun s => ~ open_row_of (us_userId session_p) 5 s) (voice_sessions d3) /\
   ~ In (us_userId session_p) (participants d3 5)).
Proof.
  split; [vm_compute; reflexivity |].
  apply (voice_double_join_single_leave voice_server session_p 5 10 20 30);
    [lia | lia | lia | constructor].
Defined.

End VoiceClaims.

Module DawRouteFacts.
Import Daw DawRoutes DawFacts.

Lemma length_zrange (c : Z) (n : nat) : length (zrange c n) = n.
Proof. unfold zrange. by rewrite length_map, length_seq. Qed.

Lemma sort_zrange (l : list project_op) (c : Z) :
  map po_version_int l = zrange c (length l) -> sort_by_version l = l.
Proof.
  revert c. induction l as [| r rest IH]; intros c Hl; [done |].
  cbn [length] in Hl. rewrite zrange_S in Hl. cbn [map] in Hl.
  injection Hl as Hr Hrest. cbn [sort_by_version]. rewrite (IH _ Hrest).
  destruct rest as [| r' rest']; [done |].
  cbn [length] in Hrest. rewrite zrange_S in Hrest. cbn [map] in Hrest.
  injection Hrest as Hr' _. cbn [insert_by_version].
  rewrite Hr, Hr', (proj2 (Z.leb_le (c + 1) (c + 1 + 1))); [reflexivity | lia].
Qed.

Lemma latest_zrange (l : list project_op) (n : nat) :
  map po_version_int l = zrange 0 n -> latest_version l = Z.of_nat n.
Proof.
  intros Hl. unfold latest_version.
  destruct n as [| n].
  - change (zrange 0 0) with (@nil Z) in Hl. apply map_eq_nil in Hl as ->. done.
  - replace (S n) with (n + 1)%nat in Hl by lia.
    rewrite zrange_app in Hl. change (zrange (0 + Z.of_nat n) 1) with [0 + Z.of_nat n + 0 + 1] in Hl.
    apply map_eq_app in Hl as (l1 & l2 & -> & _ & Hl2).
    destruct l2 as [| r [| ? ?]]; try discriminate.
    cbn in Hl2. injection Hl2 as Hr. rewrite rev_app_distr. cbn. lia.
Qed.

Lemma filter_project (p : Z) (rows : list project_op) :
  map po_version_int (List.filter (fun r => Z.eqb (po_project_id r) p) rows) = versions_of p rows.
Proof. reflexivity. Qed.

Lemma filter_ops_to_insert (p c : Z) (ops : list DawOp) :
  List.filter (fun r => Z.eqb (po_project_id r) p) (ops_to_insert p c ops) = ops_to_insert p c ops.
Proof.
  revert c. induction ops as [| op ops IH]; intros c; [done |].
  rewrite ops_to_insert_cons. cbn. rewrite Z.eqb_refl. f_equal. apply IH.
Qed.

Lemma json_ops_to_insert (p c : Z) (ops : list DawOp) :
  map po_op_json (ops_to_insert p c ops) = ops.
Proof.
  revert c. induction ops as [| op ops IH]; intros c; [done |].
  rewrite ops_to_insert_cons. cbn. f_equal. apply IH.
Qed.

Lemma get_ops_zseq (d : db) (p V : Z) :
  p ∈ projects d -> 0 <= V -> versions_of p (project_ops d) = zseq V ->
  get_ops d p =
    OpsLog p (map po_op_json (List.filter (fun r => Z.eqb (po_project_id r) p) (project_ops d))) V /\
  length (List.filter (fun r => Z.eqb (po_project_id r) p) (project_ops d)) = Z.to_nat V.
Proof.
  intros Hp HV Hvers.
  set (l := List.filter _ (project_ops d)).
  assert (Hl : map po_version_int l = zrange 0 (Z.to_nat V)) by exact Hvers.
  assert (Hlen : length l = Z.to_nat V).
  { rewrite <- (length_map po_version_int l), Hl. apply length_zrange. }
  split; [| exact Hlen].
  unfold get_ops. rewrite (bool_decide_eq_true_2 _ Hp). cbn [negb].
  fold l. rewrite (sort_zrange l 0) by (rewrite Hlen; exact Hl).
  rewrite (latest_zrange l (Z.to_nat V) Hl). f_equal. lia.
Qed.

Lemma reread_zseq (p : Z) (rows : list project_op) (V : Z) :
  0 <= V -> versions_of p rows = zseq V -> reread_version_of (max_version p rows) = V.
Proof.
  intros HV Hvers. rewrite (max_version_zseq p rows V HV Hvers).
  destruct (Z.eqb_spec V 0); cbn; lia.
Qed.

Lemma submit_rows_only (d : db) (now p : Z) (b : Q) (ops : list DawOp) :
  projects (snd (submit d now p b ops)) = projects d.
Proof.
  destruct (submit_shape d now p b ops) as [-> | (_ & _ & ->)]; reflexivity.
Qed.

End DawRouteFacts.

Module DawRouteClaims.
Import Daw DawScenarios DawRoutes DawFacts DawRouteFacts.



(** On a project whose log is 1..V (V <= 1,000,000), a non-empty batch
    submitted with baseVersion <= V is applied, and GET
    /:projectId/daw/ops afterwards returns the operations it returned
    before followed by the batch, in order, with version V + len(ops). *)
Theorem daw_submit_then_get_ops (d : db) (now p V : Z) (b : Q) (ops : list DawOp) :
  p ∈ projects d -> versions_of p (project_ops d) = zseq V -> 0 <= V <= 1000000 ->
  (b <= inject_Z V)%Q -> ops <> [] ->
  exists olds,
    get_ops d p = OpsLog p olds V /\
    fst (submit d now p b ops) = Applied (V + Z.of_nat (length ops)) (Z.of_nat (length ops)) /\
    get_ops (snd (submit d now p b ops)) p = OpsLog p (olds ++ ops) (V + Z.of_nat (length ops)).
Proof.
  intros Hp Hvers HV Hb Hops.
  pose proof (reread_zseq p _ V ltac:(lia) Hvers) as Hre.
  destruct (get_ops_zseq d p V Hp ltac:(lia) Hvers) as [Hget _].
  eexists. split; [exact Hget |].
  rewrite (submit_applies d now p b ops Hp Hops) by (rewrite Hre; first [lia | exact Hb]).
  rewrite Hre. split; [reflexivity |].
  assert (Hvers' : versions_of p (project_ops d ++ ops_to_insert p V ops) =
                   zseq (V + Z.of_nat (length ops))).
  { rewrite versions_of_app, versions_ops_to_insert, Hvers. unfold zseq.
    replace (Z.to_nat (V + Z.of_nat (length ops))) with (Z.to_nat V + length ops)%nat by lia.
    rewrite zrange_app. f_equal. f_equal. lia. }
  destruct (get_ops_zseq (mkDb (projects d) (project_ops d ++ ops_to_insert p V ops)
                               (update_snapshot_version p (V + Z.of_nat (length ops)) now
                                  (project_snapshot d)))
                         p (V + Z.of_nat (length ops)) Hp ltac:(lia) Hvers') as [Hget' _].
  cbn [snd]. rewrite Hget'. cbn [project_ops]. rewrite List.filter_app, map_app, filter_ops_to_insert,
    json_ops_to_insert. reflexivity.
Qed.

Lemma daw_submit_then_get_ops_witness :
  (7 ∈ projects doc_two /\ versions_of 7 (project_ops doc_two) = zseq 2 /\
   0 <= 2 <= 1000000 /\ (1 <= inject_Z 2)%Q /\ [op_of "C"] <> [] /\
   get_ops doc_two 7 = OpsLog 7 [op_of "A"; op_of "B"] 2) /\
  exists olds,
    get_ops doc_two 7 = OpsLog 7 olds 2 /\
    fst (submit doc_two 1 7 1 [op_of "C"]) =
      Applied (2 + Z.of_nat (length [op_of "C"])) (Z.of_nat (length [op_of "C"])) /\
    get_ops (snd (submit doc_two 1 7 1 [op_of "C"])) 7 =
      OpsLog 7 (olds ++ [op_of "C"]) (2 + Z.of_nat (length [op_of "C"])).
Proof.
  assert (Hp : 7 ∈ projects doc_two) by (cbn; set_solver).
  assert (Hb : (1 <= inject_Z 2)%Q) by (unfold Qle; cbn; lia).
  split.
  - split; [exact Hp |]. split; [vm_compute; reflexivity |]. split; [lia |].
    split; [exact Hb |]. split; [discriminate | vm_compute; reflexivity].
  - apply (daw_submit_then_get_ops doc_two 1 7 2 1 [op_of "C"] Hp);
      [vm_compute; reflexivity | lia | exact Hb | discriminate].
Defined.

(** A submit never touches the snapshot's JSON: when a non-empty batch
    is applied to a project with a snapshot row, GET /:projectId/daw
    afterwards returns the same snapshot_json as before, with the new
    version. *)
Theorem daw_submit_keeps_snapshot_json (d : db) (now now' p : Z) (b : Q)
    (ops : list DawOp) (s : snapshot) :
  p ∈ projects d -> project_snapshot d !! p = Some s -> ops <> [] ->
  reread_version_of (max_version p (project_ops d)) <= 1000000 ->
  (b <= inject_Z (reread_version_of (max_version p (project_ops d))))%Q ->
  let W := reread_version_of (max_version p (project_ops d)) + Z.of_nat (length ops) in
  fst (submit d now p b ops) = Applied W (Z.of_nat (length ops)) /\
  get_snapshot (snd (submit d now p b ops)) now' p =
    (SnapState (snapshot_json s) W, snd (submit d now p b ops)).
Proof.
  intros Hp Hs Hops Hsmall Hb. cbv zeta.
  rewrite (submit_applies d now p b ops Hp Hops Hsmall Hb). split; [reflexivity |].
  unfold get_snapshot. cbn [projects project_snapshot snd].
  rewrite (bool_decide_eq_true_2 _ Hp). cbn [negb].
  unfold update_snapshot_version. rewrite Hs, lookup_insert_eq. reflexivity.
Qed.

Lemma daw_submit_keeps_snapshot_json_witness :
  (7 ∈ projects doc_empty /\ project_snapshot doc_empty !! 7 = Some (mkSnapshot "{}" 0 0)) /\
  let W := reread_version_of (max_version 7 (project_ops doc_empty)) + Z.of_nat (length [op_of "a"]) in
  fst (submit doc_empty 1 7 0 [op_of "a"]) = Applied W (Z.of_nat (length [op_of "a"])) /\
  get_snapshot (snd (submit doc_empty 1 7 0 [op_of "a"])) 2 7 =
    (SnapState (snapshot_json (mkSnapshot "{}" 0 0)) W, snd (submit doc_empty 1 7 0 [op_of "a"])).
Proof.
  assert (Hp : 7 ∈ projects doc_empty) by (cbn; set_solver).
  split; [split; [exact Hp | reflexivity] |].
  apply (daw_submit_keeps_snapshot_json doc_empty 1 2 7 0 [op_of "a"] _ Hp);
    [reflexivity | discriminate | cbn; lia | unfold Qle; cbn; lia].
Defined.

(** A submit on a project without a snapshot row applies the batch
    (its rows are appended to project_ops) but creates no snapshot row,
    so the next GET /:projectId/daw inserts the initial snapshot and
    reports version 0, whatever versions were just stored. *)
Theorem daw_submit_without_snapshot (d : db) (now now' p : Z) (b : Q) (ops : list DawOp) :
  p ∈ projects d -> project_snapshot d !! p = None -> ops <> [] ->
  reread_version_of (max_version p (project_ops d)) <= 1000000 ->
  (b <= inject_Z (reread_version_of (max_version p (project_ops d))))%Q ->
  let V := reread_version_of (max_version p (project_ops d)) in
  fst (submit d now p b ops) = Applied (V + Z.of_nat (length ops)) (Z.of_nat (length ops)) /\
  project_ops (snd (submit d now p b ops)) = project_ops d ++ ops_to_insert p V ops /\
  project_snapshot (snd (submit d now p b ops)) !! p = None /\
  fst (get_snapshot (snd (submit d now p b ops)) now' p) =
    SnapState (initial_state_json p) 0.
Proof.
  intros Hp Hs Hops Hsmall Hb. cbv zeta.
  rewrite (submit_applies d now p b ops Hp Hops Hsmall Hb). split; [reflexivity |].
  cbn [snd project_ops project_snapshot]. split; [reflexivity |].
  unfold update_snapshot_version. rewrite Hs. split; [exact Hs |].
  unfold get_snapshot. cbn [projects project_snapshot].
  rewrite (bool_decide_eq_true_2 _ Hp). cbn [negb]. rewrite Hs. reflexivity.
Qed.

Lemma daw_submit_without_snapshot_witness :
  let d := mkDb {[ 7 ]} [] ∅ in
  (7 ∈ projects d /\ project_snapshot d !! 7 = None) /\
  let V := reread_version_of (max_version 7 (project_ops d)) in
  fst (submit d 1 7 0 [op_of "a"]) = Applied (V + Z.of_nat (length [op_of "a"])) (Z.of_nat (length [op_of "a"])) /\
  project_ops (snd (submit d 1 7 0 [op_of "a"])) = project_ops d ++ ops_to_insert 7 V [op_of "a"] /\
  project_snapshot (snd (submit d 1 7 0 [op_of "a"])) !! 7 = None /\
  fst (get_snapshot (snd (submit d 1 7 0 [op_of "a"])) 2 7) = SnapState (initial_state_json 7) 0.
Proof.
  cbv zeta.
  assert (Hp : 7 ∈ projects (mkDb {[ 7 ]} [] ∅)) by (cbn; set_solver).
  split; [split; [exact Hp | reflexivity] |].
  apply (daw_submit_without_snapshot (mkDb {[ 7 ]} [] ∅) 1 2 7 0 [op_of "a"] Hp);
    [reflexivity | discriminate | cbn; lia | unfold Qle; cbn; lia].
Defined.

(** POST / with a name and a signed-in user that exists in the users
    table creates the project and its snapshot row at version 0 (when
    the new id has no project, snapshot or operation rows yet); from
    there, GET /:projectId/daw/ops returns
    no operations and version 0, and any sequence of submits keeps the
    project's stored versions 1..V matching its snapshot version V. *)
Theorem daw_create_project_log (d : db) (users : list string) (name userId : string)
    (newId now : Z) :
  name <> EmptyString -> userId <> EmptyString -> existsb (String.eqb userId) users = true ->
  newId ∉ projects d -> project_snapshot d !! newId = None ->
  versions_of newId (project_ops d) = [] ->
  let (r, d') := create_project d users (Some name) (Some userId) newId now in
  r = Created newId /\ get_ops d' newId = OpsLog newId [] 0 /\
  forall reqs, contiguous_log newId (run_submits d' reqs).
Proof.
  intros Hn Hu Hus Hp Hs Hvers. unfold create_project.
  destruct name as [| c n]; [done |]. destruct userId as [| c' u]; [done |].
  rewrite (bool_decide_eq_false_2 _ Hp), Hus, Hs. cbn [negb].
  assert (Hp' : newId ∈ projects (mkDb ({[newId]} ∪ projects d) (project_ops d)
                   (<[newId := mkSnapshot (initial_state_json newId) 0 now]> (project_snapshot d)))).
  { cbn. set_solver. }
  split; [reflexivity |]. split.
  - destruct (get_ops_zseq _ newId 0 Hp' ltac:(lia) Hvers) as [-> Hlen].
    apply length_zero_iff_nil in Hlen. cbn [project_ops] in Hlen |- *. by rewrite Hlen.
  - intros reqs. apply run_submits_contiguous.
    exists (mkSnapshot (initial_state_json newId) 0 now). cbn [project_snapshot project_ops].
    rewrite lookup_insert_eq. split; [reflexivity |]. split; [cbn; lia | exact Hvers].
Qed.

Lemma daw_create_project_log_witness :
  ("song" <> EmptyString /\ "u1" <> EmptyString /\ existsb (String.eqb "u1") ["u0"; "u1"] = true /\
   (8 ∉ projects doc_empty) /\ project_snapshot doc_empty !! 8 = None /\
   versions_of 8 (project_ops doc_empty) = []) /\
  let (r, d') := create_project doc_empty ["u0"; "u1"] (Some "song") (Some "u1") 8 3 in
  r = Created 8 /\ get_ops d' 8 = OpsLog 8 [] 0 /\
  forall reqs, contiguous_log 8 (run_submits d' reqs).
Proof.
  assert (Hp : 8 ∉ projects doc_empty) by (cbn; set_solver).
  split; [split; [discriminate |]; split; [discriminate |]; split; [reflexivity |];
          split; [exact Hp | split; reflexivity] |].
  apply (daw_create_project_log doc_empty ["u0"; "u1"] "song" "u1" 8 3);
    [discriminate | discriminate | reflexivity | exact Hp | reflexivity | reflexivity].
Defined.

End DawRouteClaims.

Module SocketFacts.
Import Presence PresenceFacts PresenceClaims Voice VoiceFacts Sockets.

Lemma presence_entry_connect_ne (reg : gmap Z (gmap string Z)) (r r' : Z) (u u' : string) :
  ~ (r' = r /\ u' = u) ->
  presence_entry (fst (presence_connect reg r u)) r' u' = presence_entry reg r' u'.
Proof.
  intros Hne. unfold presence_entry. cbn [fst presence_connect].
  destruct (Z.eq_dec r' r) as [-> | Hr].
  - rewrite lookup_insert_eq. cbn.
    rewrite lookup_insert_ne by (intros ->; tauto).
    destruct (reg !! r); cbn; [done | by rewrite lookup_empty].
  - rewrite lookup_insert_ne by congruence. reflexivity.
Qed.

Lemma presence_entry_disconnect (reg : gmap Z (gmap string Z)) (r r' : Z) (u u' : string) :
  presence_entry (fst (presence_disconnect reg r u)) r' u' =
    if decide (r' = r /\ u' = u) then disconnect_entry (presence_entry reg r u)
    else presence_entry reg r' u'.
Proof.
  unfold presence_disconnect, presence_entry.
  destruct (reg !! r) as [m |] eqn:Hr.
  - cbn [mbind option_bind].
    set (next := Z.max 0 (default 0 (m !! u) - 1)).
    assert (Hnext : disconnect_entry (m !! u) =
                    if Z.eqb next 0 then None else Some next).
    { unfold next. destruct (m !! u) as [c |]; cbn; [done |].
      reflexivity. }
    destruct (Z.eqb next 0) eqn:Hz.
    + destruct (Nat.eqb (size (delete u m)) 0) eqn:Hs.
      * apply Nat.eqb_eq, map_size_empty_iff in Hs.
        cbn [fst]. destruct (decide (r' = r /\ u' = u)) as [[-> ->] | Hne].
        { rewrite lookup_delete_eq, Hnext. reflexivity. }
        destruct (Z.eq_dec r' r) as [-> | Hrr].
        { rewrite lookup_delete_eq, Hr. cbn.
          assert (Hu : u' <> u) by tauto.
          rewrite <- (lookup_delete_ne m u u') by congruence. rewrite Hs, lookup_empty.
          reflexivity. }
        rewrite lookup_delete_ne by congruence. reflexivity.
      * cbn [fst]. destruct (decide (r' = r /\ u' = u)) as [[-> ->] | Hne].
        { rewrite lookup_insert_eq. cbn. rewrite lookup_delete_eq, Hnext. reflexivity. }
        destruct (Z.eq_dec r' r) as [-> | Hrr].
        { rewrite lookup_insert_eq, Hr. cbn. rewrite lookup_delete_ne by (intros ->; tauto).
          reflexivity. }
        rewrite lookup_insert_ne by congruence. reflexivity.
    + assert (Hne0 : Nat.eqb (size (<[u := next]> m)) 0 = false).
      { apply Nat.eqb_neq. intros Hs%map_size_empty_iff.
        exact (insert_non_empty m u next Hs). }
      rewrite Hne0. cbn [fst].
      destruct (decide (r' = r /\ u' = u)) as [[-> ->] | Hne].
      { rewrite lookup_insert_eq. cbn. rewrite lookup_insert_eq, Hnext. reflexivity. }
      destruct (Z.eq_dec r' r) as [-> | Hrr].
      { rewrite lookup_insert_eq, Hr. cbn. rewrite lookup_insert_ne by (intros ->; tauto).
        reflexivity. }
      rewrite lookup_insert_ne by congruence. reflexivity.
  - cbn [fst]. destruct (decide (r' = r /\ u' = u)) as [[-> ->] | _]; [| reflexivity].
    rewrite Hr. reflexivity.
Qed.

Lemma session_count_insert (sessions : gmap string UserSession) (sid : string)
    (u u' : string) (r r' : Z) :
  sessions !! sid = None ->
  session_count (<[sid := mkUserSession u r]> sessions) r' u' =
    if decide (r' = r /\ u' = u) then S (session_count sessions r' u')
    else session_count sessions r' u'.
Proof.
  intros Hsid. unfold session_count.
  destruct (decide (r' = r /\ u' = u)) as [[-> ->] | Hne].
  - rewrite map_filter_insert_True by (cbn; auto).
    apply map_size_insert_None. apply map_lookup_filter_None_2. by left.
  - rewrite map_filter_insert_False by (cbn; intros [<- <-]; tauto).
    by rewrite delete_id.
Qed.

Lemma session_count_delete (sessions : gmap string UserSession) (sid : string)
    (s : UserSession) (u' : string) (r' : Z) :
  sessions !! sid = Some s ->
  session_count (delete sid sessions) r' u' =
    if decide (r' = us_serverId s /\ u' = us_userId s) then pred (session_count sessions r' u')
    else session_count sessions r' u'.
Proof.
  intros Hsid. unfold session_count. rewrite map_filter_delete, map_size_delete.
  destruct (decide (r' = us_serverId s /\ u' = us_userId s)) as [[-> ->] | Hne].
  - rewrite (map_lookup_filter_Some_2 _ _ _ _ Hsid) by (cbn; auto). reflexivity.
  - rewrite map_lookup_filter_None_2; [reflexivity |].
    right. intros x Hx. rewrite Hsid in Hx. injection Hx as <-. cbn. intros [<- <-]. tauto.
Qed.

Lemma session_count_pos (sessions : gmap string UserSession) (r : Z) (u : string) :
  session_count sessions r u <> 0%nat <->
  exists sid, sessions !! sid = Some (mkUserSession u r).
Proof.
  unfold session_count. split.
  - intros Hs. destruct (map_choose (filter (fun kv : string * UserSession =>
                  us_userId (snd kv) = u /\ us_serverId (snd kv) = r) sessions)) as (i & x & Hx).
    { intros He. apply Hs. by rewrite He, map_size_empty. }
    apply map_lookup_filter_Some in Hx as [Hx [Hu Hr]]. cbn in Hu, Hr.
    exists i. rewrite Hx. destruct x; cbn in *. by subst.
  - intros [sid Hsid] Hs. apply map_size_empty_iff in Hs.
    assert (Hl : filter (fun kv : string * UserSession =>
                  us_userId (snd kv) = u /\ us_serverId (snd kv) = r) sessions !! sid =
                 Some (mkUserSession u r)).
    { apply map_lookup_filter_Some_2; [exact Hsid | cbn; auto]. }
    rewrite Hs, lookup_empty in Hl. discriminate.
Qed.

Lemma session_count_lookup (sessions : gmap string UserSession) (sid : string) (s : UserSession) :
  sessions !! sid = Some s -> session_count sessions (us_serverId s) (us_userId s) <> 0%nat.
Proof.
  intros Hsid. apply session_count_pos. exists sid. rewrite Hsid. by destruct s.
Qed.

Lemma socket_inv_init (memberships : list (Z * string)) (d : voice_db)
    (msgs : list message) (n : Z) :
  socket_inv (mkSocketState ∅ ∅ memberships d msgs n).
Proof.
  split; [apply registry_ok_empty |]. intros r u. cbn.
  unfold presence_entry, session_count. rewrite lookup_empty, map_filter_empty, map_size_empty.
  reflexivity.
Qed.

Lemma auth_preserves_inv (st : socket_state) (sid u : string) (srv : option Z) :
  socket_inv st -> userSessions st !! sid = None ->
  socket_inv (snd (auth_handler st sid u srv)).
Proof.
  intros [Hok Hinv] Hsid. unfold auth_handler.
  destruct srv as [r |]; [| by split].
  destruct (String.eqb u EmptyString); [by split |].
  destruct (negb (existsb _ (server_memberships st))); [by split |].
  destruct (negb (existsb _ (users (vdb st)))); [by split |].
  destruct (presence_connect (serverOnlineUsers st) r u) as [reg' online] eqn:Hc.
  cbn [snd serverOnlineUsers userSessions].
  assert (Hreg : reg' = fst (presence_connect (serverOnlineUsers st) r u)) by (rewrite Hc; done).
  split.
  - rewrite Hreg. by apply presence_connect_ok.
  - intros r' u'. cbn [serverOnlineUsers userSessions].
    rewrite Hreg, session_count_insert by exact Hsid.
    destruct (decide (r' = r /\ u' = u)) as [[-> ->] | Hne].
    + rewrite presence_entry_connect, Hinv. unfold count_entry.
      destruct (Nat.eqb_spec (session_count (userSessions st) r u) 0) as [-> | Hn]; cbn.
      * reflexivity.
      * f_equal. lia.
    + rewrite presence_entry_connect_ne by exact Hne. apply Hinv.
Qed.

Lemma close_user_open_ok (userId : string) (now : Z) (s : voice_session) :
  vs_joined_at s <= now ->
  exists s', close_user_open userId now s = Some s' /\
             vs_channel_id s' = vs_channel_id s /\
             ~ (vs_user_id s' = userId /\ vs_left_at s' = None).
Proof.
  intros Hle. unfold close_user_open.
  destruct (String.eqb (vs_user_id s) userId && is_open s) eqn:Hm.
  - rewrite (proj2 (Z.leb_le _ _) Hle).
    eexists. split; [reflexivity |]. split; [reflexivity |]. intros (_ & H). discriminate.
  - exists s. split; [reflexivity |]. split; [reflexivity |]. intros (Hu & Ho).
    apply String.eqb_eq in Hu. rewrite Hu in Hm. unfold is_open in Hm. rewrite Ho in Hm.
    discriminate.
Qed.

Lemma close_user_sessions_ok (userId : string) (now : Z) (rows : list voice_session) :
  Forall (fun s => vs_joined_at s <= now) rows ->
  exists rows', close_user_sessions userId now rows = Some rows' /\
    Forall (fun s => ~ (vs_user_id s = userId /\ vs_left_at s = None)) rows'.
Proof.
  induction rows as [| s rest IH]; intros Hall.
  - exists []. split; [reflexivity | constructor].
  - inversion Hall as [| ? ? Hs Hrest]; subst.
    destruct (close_user_open_ok userId now s Hs) as (s' & Hs' & _ & Hn).
    destruct (IH Hrest) as [rest' [Hr' Hn']].
    exists (s' :: rest'). cbn. rewrite Hs', Hr'. split; [reflexivity |].
    constructor; assumption.
Qed.

Lemma disconnect_preserves_inv (st : socket_state) (sid : string) (now : Z) :
  socket_inv st -> socket_inv (snd (disconnect_handler st sid now)).
Proof.
  intros [Hok Hinv]. unfold disconnect_handler.
  destruct (userSessions st !! sid) as [s |] eqn:Hsid; [| by split].
  destruct (close_user_sessions _ _ _) as [rows |]; [| by split].
  destruct (presence_disconnect (serverOnlineUsers st) (us_serverId s) (us_userId s))
    as [reg' offline] eqn:Hd.
  assert (Hreg : reg' = fst (presence_disconnect (serverOnlineUsers st) (us_serverId s) (us_userId s)))
    by (rewrite Hd; done).
  cbn [snd serverOnlineUsers userSessions]. split.
  - rewrite Hreg. by apply presence_disconnect_ok.
  - intros r' u'. cbn [serverOnlineUsers userSessions].
    rewrite Hreg, presence_entry_disconnect, (session_count_delete _ _ s) by exact Hsid.
    destruct (decide (r' = us_serverId s /\ u' = us_userId s)) as [[-> ->] | Hne].
    + rewrite Hinv. pose proof (session_count_lookup _ _ _ Hsid) as Hpos.
      unfold count_entry.
      destruct (session_count (userSessions st) (us_serverId s) (us_userId s)) as [| n]; [done |].
      cbn [Nat.eqb disconnect_entry pred].
      destruct n as [| n]; cbn [Nat.eqb].
      * replace (Z.max 0 (Z.of_nat 1 - 1)) with 0 by lia. reflexivity.
      * rewrite (proj2 (Z.eqb_neq _ 0)) by lia. f_equal. lia.
    + apply Hinv.
Qed.

Lemma voice_join_handler_maps (st : socket_state) (sid : string) (c now : Z) :
  userSessions (snd (voice_join_handler st sid c now)) = userSessions st /\
  serverOnlineUsers (snd (voice_join_handler st sid c now)) = serverOnlineUsers st.
Proof.
  unfold voice_join_handler. destruct (voice_join _ _ _ _). split; reflexivity.
Qed.

Lemma voice_leave_handler_maps (st : socket_state) (sid : string) (c now : Z) :
  userSessions (snd (voice_leave_handler st sid c now)) = userSessions st /\
  serverOnlineUsers (snd (voice_leave_handler st sid c now)) = serverOnlineUsers st.
Proof.
  unfold voice_leave_handler. destruct (voice_leave _ _ _ _). split; reflexivity.
Qed.

Lemma message_send_maps (st : socket_state) (sid : string) (c : Z) (content : option string) :
  userSessions (snd (message_send st sid c content)) = userSessions st /\
  serverOnlineUsers (snd (message_send st sid c content)) = serverOnlineUsers st.
Proof.
  unfold message_send.
  destruct (userSessions st !! sid); [| split; reflexivity].
  destruct content as [text |]; [| split; reflexivity].
  destruct (String.eqb _ _); [split; reflexivity |].
  destruct (negb _); [split; reflexivity |].
  destruct (_ || _); split; reflexivity.
Qed.

Lemma socket_inv_maps (st st' : socket_state) :
  userSessions st' = userSessions st -> serverOnlineUsers st' = serverOnlineUsers st ->
  socket_inv st -> socket_inv st'.
Proof. intros Hs Hr. unfold socket_inv. by rewrite Hs, Hr. Qed.

Lemma run_sockets_inv (st : socket_state) (evs : list socket_event) :
  socket_inv st -> no_reauth st evs = true -> socket_inv (run_sockets st evs).
Proof.
  unfold run_sockets. revert st.
  induction evs as [| e evs IH]; intros st Hinv Hno; [exact Hinv |].
  cbn [no_reauth] in Hno. apply andb_prop in Hno as [He Hrest].
  cbn [fold_left]. apply IH; [| exact Hrest].
  destruct e as [sid u srv | sid now | sid c now | sid c now | sid c content]; cbn [socket_step].
  - apply auth_preserves_inv; [exact Hinv |].
    destruct (userSessions st !! sid); [discriminate | reflexivity].
  - by apply disconnect_preserves_inv.
  - destruct (voice_join_handler_maps st sid c now) as [H1 H2].
    exact (socket_inv_maps _ _ H1 H2 Hinv).
  - destruct (voice_leave_handler_maps st sid c now) as [H1 H2].
    exact (socket_inv_maps _ _ H1 H2 Hinv).
  - destruct (message_send_maps st sid c content) as [H1 H2].
    exact (socket_inv_maps _ _ H1 H2 Hinv).
Qed.

(** *** Trimming *)

Lemma drop_while_keeps (f : Ascii.ascii -> bool) (l : list Ascii.ascii) (c : Ascii.ascii) :
  In c l -> f c = false -> exists c', In c' (drop_while f l) /\ f c' = false.
Proof.
  induction l as [| x rest IH]; intros Hin Hc; [done |].
  cbn. destruct (f x) eqn:Hx.
  - destruct Hin as [-> | Hin]; [congruence |]. exact (IH Hin Hc).
  - exists x. split; [left; reflexivity | exact Hx].
Qed.

Lemma trim_with_keeps (f : Ascii.ascii -> bool) (s : string) (c : Ascii.ascii) :
  In c (String.list_ascii_of_string s) -> f c = false ->
  exists c', In c' (String.list_ascii_of_string (trim_with f s)) /\ f c' = false.
Proof.
  intros Hin Hc. unfold trim_with. rewrite String.list_ascii_of_string_of_list_ascii.
  destruct (drop_while_keeps f _ c Hin Hc) as (c1 & Hc1 & Hf1).
  apply in_rev in Hc1.
  destruct (drop_while_keeps f _ c1 Hc1 Hf1) as (c2 & Hc2 & Hf2).
  exists c2. split; [apply in_rev; rewrite rev_involutive; exact Hc2 | exact Hf2].
Qed.

Lemma trim_with_nonempty (f : Ascii.ascii -> bool) (s : string) :
  trim_with f s <> EmptyString ->
  exists c, In c (String.list_ascii_of_string (trim_with f s)) /\ f c = false.
Proof.
  unfold trim_with. rewrite String.list_ascii_of_string_of_list_ascii.
  destruct (drop_while f (rev (drop_while f (String.list_ascii_of_string s)))) as [| c r] eqn:Hd.
  - cbn. congruence.
  - intros _. exists c. split.
    + apply in_rev. rewrite rev_involutive. left. reflexivity.
    + apply (f_equal (@head _)) in Hd. cbn in Hd.
      revert Hd. generalize (rev (drop_while f (String.list_ascii_of_string s))).
      intros l. induction l as [| x l IH]; cbn; [discriminate |].
      destruct (f x) eqn:Hx; [exact IH |]. intros [= ->]. exact Hx.
Qed.

Lemma space_is_js_space (c : Ascii.ascii) :
  js_space c = false -> Ascii.eqb c (Ascii.ascii_of_nat 32) = false.
Proof.
  intros Hc. destruct (Ascii.eqb_spec c (Ascii.ascii_of_nat 32)) as [-> | _]; [| reflexivity].
  discriminate.
Qed.

Lemma js_trim_passes_check (s : string) :
  js_trim s <> EmptyString -> messages_content_nonempty (js_trim s) = true.
Proof.
  intros Hne. destruct (trim_with_nonempty js_space s Hne) as (c & Hc & Hf).
  destruct (trim_with_keeps (fun c => Ascii.eqb c (Ascii.ascii_of_nat 32)) (js_trim s) c Hc
              (space_is_js_space c Hf)) as (c' & Hc' & _).
  unfold messages_content_nonempty. fold (pg_trim (js_trim s)) in Hc'.
  destruct (pg_trim (js_trim s)); [done | reflexivity].
Qed.

(** *** Voice rosters *)

Lemma participants_rows_app (d : voice_db) (chs : list channel) (rows : list voice_session)
    (n c : Z) :
  participants (mkVoiceDb chs (users d) (voice_sessions d ++ rows) n) c =
  participants d c ++ participants (mkVoiceDb chs (users d) rows n) c.
Proof. unfold participants. cbn. apply flat_map_app. Qed.

Lemma close_sessions_other (u : string) (c c' now : Z) (us : list string)
    (rows rows' : list voice_session) :
  c' <> c -> close_sessions u c now rows = Some rows' ->
  participants (mkVoiceDb [] us rows' 0) c' = participants (mkVoiceDb [] us rows 0) c'.
Proof.
  intros Hne. revert rows'. unfold participants. cbn [voice_sessions users].
  induction rows as [| s rest IH]; intros rows' Hcl; cbn in Hcl.
  - injection Hcl as <-. reflexivity.
  - destruct (close_open u c now s) as [s' |] eqn:Hs; [| discriminate].
    destruct (close_sessions u c now rest) as [rest' |] eqn:Hr; [| discriminate].
    injection Hcl as <-. cbn [flat_map]. rewrite (IH rest' eq_refl). f_equal.
    unfold close_open in Hs.
    destruct (String.eqb (vs_user_id s) u && Z.eqb (vs_channel_id s) c && is_open s) eqn:Hm.
    + destruct (Z.leb _ _); [| discriminate]. injection Hs as <-. cbn.
      apply andb_prop in Hm as [Hm _]. apply andb_prop in Hm as [_ Hc].
      apply Z.eqb_eq in Hc. rewrite Hc, (proj2 (Z.eqb_neq c c')) by congruence. reflexivity.
    + injection Hs as <-. reflexivity.
Qed.

Lemma participants_irrelevant (d : voice_db) (c : Z) :
  participants d c = participants (mkVoiceDb [] (users d) (voice_sessions d) 0) c.
Proof. reflexivity. Qed.

Lemma auth_success (st : socket_state) (sid u : string) (r : Z) :
  u <> EmptyString ->
  existsb (fun m => Z.eqb (fst m) r && String.eqb (snd m) u) (server_memberships st) = true ->
  existsb (String.eqb u) (users (vdb st)) = true ->
  auth_handler st sid u (Some r) =
    (AuthSuccess (snd (presence_connect (serverOnlineUsers st) r u))
                 (getOnlineUsersForServer (fst (presence_connect (serverOnlineUsers st) r u)) r),
     mkSocketState (<[sid := mkUserSession u r]> (userSessions st))
                   (fst (presence_connect (serverOnlineUsers st) r u))
                   (server_memberships st) (vdb st) (messages st) (next_message_id st)).
Proof.
  intros Hu Hm Hus. unfold auth_handler.
  rewrite (proj2 (String.eqb_neq u EmptyString) Hu), Hm, Hus. cbn [negb].
  destruct (presence_connect (serverOnlineUsers st) r u). reflexivity.
Qed.

Lemma disconnect_success (st : socket_state) (sid : string) (now : Z) (s : UserSession)
    (rows : list voice_session) :
  userSessions st !! sid = Some s ->
  close_user_sessions (us_userId s) now (voice_sessions (vdb st)) = Some rows ->
  disconnect_handler st sid now =
    (snd (presence_disconnect (serverOnlineUsers st) (us_serverId s) (us_userId s)),
     mkSocketState (delete sid (userSessions st))
                   (fst (presence_disconnect (serverOnlineUsers st) (us_serverId s) (us_userId s)))
                   (server_memberships st)
                   (mkVoiceDb (channels (vdb st)) (users (vdb st)) rows (next_session_id (vdb st)))
                   (messages st) (next_message_id st)).
Proof.
  intros Hs Hrows. unfold disconnect_handler. rewrite Hs, Hrows.
  destruct (presence_disconnect _ _ _). reflexivity.
Qed.

Lemma forallb_joined (rows : list voice_session) (now : Z) :
  forallb (fun s => Z.leb (vs_joined_at s) now) rows = true ->
  Forall (fun s => vs_joined_at s <= now) rows.
Proof.
  intros H. apply List.Forall_forall. intros s Hs.
  apply Z.leb_le. exact (proj1 (forallb_forall _ rows) H s Hs).
Qed.


Lemma voice_join_success (d : voice_db) (s : UserSession) (c now : Z) :
  c <> 0 ->
  existsb (fun ch => Z.eqb (ch_id ch) c && Z.eqb (ch_server_id ch) (us_serverId s)
                     && String.eqb (ch_type ch) "voice") (channels d) = true ->
  existsb (String.eqb (us_userId s)) (users d) = true ->
  voice_join d (Some s) c now =
    (Joined (next_session_id d) (participants d c ++ [us_userId s]),
     mkVoiceDb (channels d) (users d)
               (voice_sessions d ++ [mkVoiceSession (next_session_id d) c (us_userId s) now None])
               (next_session_id d + 1)).
Proof.
  intros Hc Hch Hus. unfold voice_join.
  rewrite (proj2 (Z.eqb_neq c 0) Hc), Hch, Hus. cbn [negb].
  rewrite participants_rows_app. do 3 f_equal.
  unfold participants. cbn. rewrite Z.eqb_refl, Hus. reflexivity.
Qed.

(** *** Every session is counted, also with repeated auth *)

Lemma session_count_insert_le (sessions : gmap string UserSession) (sid : string)
    (u u' : string) (r r' : Z) :
  (session_count (<[sid := mkUserSession u r]> sessions) r' u' <=
   if decide (r' = r /\ u' = u) then S (session_count sessions r' u')
   else session_count sessions r' u')%nat.
Proof.
  unfold session_count.
  destruct (decide (r' = r /\ u' = u)) as [[-> ->] | Hne].
  - rewrite map_filter_insert_True by (cbn; auto). rewrite map_size_insert.
    destruct (filter _ sessions !! sid); cbn; lia.
  - rewrite map_filter_insert_False by (cbn; intros [<- <-]; tauto).
    rewrite map_filter_delete, map_size_delete. destruct (filter _ sessions !! sid); cbn; lia.
Qed.

Lemma socket_inv_le_init (memberships : list (Z * string)) (d : voice_db)
    (msgs : list message) (n : Z) :
  socket_inv_le (mkSocketState ∅ ∅ memberships d msgs n).
Proof.
  split; [apply registry_ok_empty |]. intros r u. cbn [userSessions serverOnlineUsers].
  unfold presence_entry, session_count. rewrite lookup_empty, map_filter_empty, map_size_empty.
  cbn. lia.
Qed.

Lemma auth_preserves_le (st : socket_state) (sid u : string) (srv : option Z) :
  socket_inv_le st -> socket_inv_le (snd (auth_handler st sid u srv)).
Proof.
  intros [Hok Hinv]. unfold auth_handler.
  destruct srv as [r |]; [| by split].
  destruct (String.eqb u EmptyString); [by split |].
  destruct (negb (existsb _ (server_memberships st))); [by split |].
  destruct (negb (existsb _ (users (vdb st)))); [by split |].
  destruct (presence_connect (serverOnlineUsers st) r u) as [reg' online] eqn:Hc.
  cbn [snd serverOnlineUsers userSessions].
  assert (Hreg : reg' = fst (presence_connect (serverOnlineUsers st) r u)) by (rewrite Hc; done).
  split.
  - rewrite Hreg. by apply presence_connect_ok.
  - intros r' u'. cbn [serverOnlineUsers userSessions]. rewrite Hreg.
    pose proof (Hinv r' u') as Hi.
    destruct (decide (r' = r /\ u' = u)) as [[-> ->] | Hne].
    + pose proof (session_count_insert_le (userSessions st) sid u u r r) as Hle.
      destruct (decide (r = r /\ u = u)) as [_ | Hn]; [| tauto].
      rewrite presence_entry_connect. change (default 0 (Some ?x)) with x. lia.
    + pose proof (session_count_insert_le (userSessions st) sid u u' r r') as Hle.
      destruct (decide (r' = r /\ u' = u)) as [Hy | _]; [tauto |].
      rewrite presence_entry_connect_ne by exact Hne. lia.
Qed.

Lemma disconnect_preserves_le (st : socket_state) (sid : string) (now : Z) :
  socket_inv_le st -> socket_inv_le (snd (disconnect_handler st sid now)).
Proof.
  intros [Hok Hinv]. unfold disconnect_handler.
  destruct (userSessions st !! sid) as [s |] eqn:Hsid; [| by split].
  destruct (close_user_sessions _ _ _) as [rows |]; [| by split].
  destruct (presence_disconnect (serverOnlineUsers st) (us_serverId s) (us_userId s))
    as [reg' offline] eqn:Hd.
  assert (Hreg : reg' = fst (presence_disconnect (serverOnlineUsers st) (us_serverId s) (us_userId s)))
    by (rewrite Hd; done).
  cbn [snd serverOnlineUsers userSessions]. split.
  - rewrite Hreg. by apply presence_disconnect_ok.
  - intros r' u'. cbn [serverOnlineUsers userSessions].
    rewrite Hreg, presence_entry_disconnect, (session_count_delete _ _ s) by exact Hsid.
    pose proof (Hinv r' u') as Hi.
    destruct (decide (r' = us_serverId s /\ u' = us_userId s)) as [[-> ->] | Hne]; [| exact Hi].
    pose proof (session_count_lookup _ _ _ Hsid) as Hpos.
    destruct (presence_entry (serverOnlineUsers st) (us_serverId s) (us_userId s)) as [c |];
      cbn [default from_option disconnect_entry] in Hi |- *; [| lia].
    unfold id in Hi.
    destruct (Z.eqb_spec (Z.max 0 (c - 1)) 0) as [Hz | Hz]; cbn [default from_option];
      [| unfold id]; lia.
Qed.

Lemma socket_step_le (st : socket_state) (e : socket_event) :
  socket_inv_le st -> socket_inv_le (socket_step st e).
Proof.
  intros Hinv.
  destruct e as [sid u srv | sid now | sid c now | sid c now | sid c content]; cbn [socket_step].
  - by apply auth_preserves_le.
  - by apply disconnect_preserves_le.
  - destruct (voice_join_handler_maps st sid c now) as [H1 H2].
    unfold socket_inv_le. rewrite H1, H2. exact Hinv.
  - destruct (voice_leave_handler_maps st sid c now) as [H1 H2].
    unfold socket_inv_le. rewrite H1, H2. exact Hinv.
  - destruct (message_send_maps st sid c content) as [H1 H2].
    unfold socket_inv_le. rewrite H1, H2. exact Hinv.
Qed.

Lemma run_sockets_le (st : socket_state) (evs : list socket_event) :
  socket_inv_le st -> socket_inv_le (run_sockets st evs).
Proof.
  unfold run_sockets. revert st.
  induction evs as [| e evs IH]; intros st Hinv; cbn [fold_left]; [exact Hinv |].
  apply IH, socket_step_le, Hinv.
Qed.

Lemma session_entry_pos (st : socket_state) (sid : string) (s : UserSession) :
  socket_inv_le st -> userSessions st !! sid = Some s ->
  exists c, presence_entry (serverOnlineUsers st) (us_serverId s) (us_userId s) = Some c /\ 1 <= c.
Proof.
  intros [_ Hinv] Hs. pose proof (session_count_lookup _ _ _ Hs) as Hpos.
  pose proof (Hinv (us_serverId s) (us_userId s)) as Hi.
  destruct (presence_entry (serverOnlineUsers st) (us_serverId s) (us_userId s)) as [c |];
    cbn [default from_option] in Hi; [| lia].
  unfold id in Hi. exists c. split; [reflexivity | lia].
Qed.

Lemma presence_disconnect_counted (reg : gmap Z (gmap string Z)) (r : Z) (u : string) (c : Z) :
  presence_entry reg r u = Some c -> 1 <= c ->
  snd (presence_disconnect reg r u) = Z.eqb c 1 /\
  presence_entry (fst (presence_disconnect reg r u)) r u = if Z.eqb c 1 then None else Some (c - 1).
Proof.
  intros Hc H1. split.
  - unfold presence_entry in Hc. unfold presence_disconnect.
    destruct (reg !! r) as [m |]; [| discriminate]. cbn [mbind option_bind] in Hc.
    rewrite Hc. cbn [default from_option]. unfold id.
    destruct (Z.eqb_spec (Z.max 0 (c - 1)) 0) as [Hz | Hz];
      destruct (Z.eqb_spec c 1) as [Hc1 | Hc1]; try lia; reflexivity.
  - rewrite presence_entry_disconnect.
    destruct (decide (r = r /\ u = u)) as [_ | Hn]; [| tauto].
    rewrite Hc. cbn [disconnect_entry]. rewrite Z.max_r by lia.
    destruct (Z.eqb_spec c 1) as [-> | Hn]; [reflexivity |].
    rewrite (proj2 (Z.eqb_neq (c - 1) 0)) by lia. reflexivity.
Qed.

Lemma voice_join_step (st : socket_state) (sid : string) (s : UserSession) (c now : Z) :
  userSessions st !! sid = Some s -> c <> 0 ->
  existsb (fun ch => Z.eqb (ch_id ch) c && Z.eqb (ch_server_id ch) (us_serverId s)
                     && String.eqb (ch_type ch) "voice") (channels (vdb st)) = true ->
  existsb (String.eqb (us_userId s)) (users (vdb st)) = true ->
  socket_step st (SVoiceJoin sid c now) =
    with_vdb st (mkVoiceDb (channels (vdb st)) (users (vdb st))
                   (voice_sessions (vdb st) ++
                      [mkVoiceSession (next_session_id (vdb st)) c (us_userId s) now None])
                   (next_session_id (vdb st) + 1)).
Proof.
  intros Hs Hc Hch Hus. cbn [socket_step]. unfold voice_join_handler. rewrite Hs.
  rewrite (voice_join_success (vdb st) s c now Hc Hch Hus). reflexivity.
Qed.

Lemma participants_join (d : voice_db) (i c t : Z) (u : string) :
  existsb (String.eqb u) (users d) = true ->
  participants (mkVoiceDb (channels d) (users d)
                  (voice_sessions d ++ [mkVoiceSession i c u t None]) (i + 1)) c =
  participants d c ++ [u].
Proof.
  intros Hus. rewrite participants_rows_app. f_equal.
  unfold participants. cbn. rewrite Z.eqb_refl, Hus. reflexivity.
Qed.

End SocketFacts.

Module SocketClaims.
Import Presence PresenceFacts PresenceClaims Voice VoiceFacts Sockets SocketFacts.

(** C6: on every state the handlers reach from empty maps, whatever mix
    of auth (repeated auth on one socket included), messages, voice
    events and disconnects led there, a disconnect acts on the socket's
    (server, user) pair as follows. A socket without a session (one that
    already disconnected, a double disconnect) changes nothing and
    broadcasts nothing, without error. A socket with a session always
    finds an entry for its pair, with a count c of at least 1, so a pair
    without an entry has no socket left to disconnect. When its voice
    cleanup goes through, the count drops to c-1, the entry is removed
    when that is 0, and "user:offline" fires exactly then. *)
Theorem disconnect_presence_transition (memberships : list (Z * string)) (d : voice_db)
    (msgs : list message) (n : Z) (evs : list socket_event) (sid : string) (now : Z) :
  let st := run_sockets (mkSocketState ∅ ∅ memberships d msgs n) evs in
  (userSessions st !! sid = None -> disconnect_handler st sid now = (false, st)) /\
  (forall r u, presence_entry (serverOnlineUsers st) r u = None ->
     userSessions st !! sid <> Some (mkUserSession u r)) /\
  (forall s rows, userSessions st !! sid = Some s ->
     close_user_sessions (us_userId s) now (voice_sessions (vdb st)) = Some rows ->
     exists c,
       presence_entry (serverOnlineUsers st) (us_serverId s) (us_userId s) = Some c /\ 1 <= c /\
       presence_entry (serverOnlineUsers (snd (disconnect_handler st sid now)))
                      (us_serverId s) (us_userId s) = (if Z.eqb c 1 then None else Some (c - 1)) /\
       fst (disconnect_handler st sid now) = Z.eqb c 1).
Proof.
  intros st.
  pose proof (run_sockets_le _ evs (socket_inv_le_init memberships d msgs n)) as Hinv.
  fold st in Hinv.
  split; [intros Hn; unfold disconnect_handler; by rewrite Hn |].
  split.
  - intros r u Hnone Hs.
    destruct (session_entry_pos st sid _ Hinv Hs) as (c & Hc & _).
    cbn [us_serverId us_userId] in Hc. congruence.
  - intros s rows Hs Hrows.
    destruct (session_entry_pos st sid s Hinv Hs) as (c & Hc & H1).
    exists c. split; [exact Hc |]. split; [exact H1 |].
    rewrite (disconnect_success st sid now s rows Hs Hrows). cbn [fst snd serverOnlineUsers].
    destruct (presence_disconnect_counted _ _ _ c Hc H1) as [Ho He].
    split; [exact He | exact Ho].
Qed.

Lemma disconnect_presence_transition_witness :
  let st := run_sockets empty_state socket_run_reauth in
  (userSessions st !! "s1" = None /\ disconnect_handler st "s1" 30 = (false, st)) /\
  (userSessions st !! "s2" = Some (mkUserSession "p" 1) /\
   close_user_sessions "p" 30 (voice_sessions (vdb st)) = Some [] /\
   exists c,
     presence_entry (serverOnlineUsers st) 1 "p" = Some c /\ 1 <= c /\
     presence_entry (serverOnlineUsers (snd (disconnect_handler st "s2" 30))) 1 "p" =
       (if Z.eqb c 1 then None else Some (c - 1)) /\
     fst (disconnect_handler st "s2" 30) = Z.eqb c 1) /\
  presence_entry (serverOnlineUsers st) 1 "p" = Some 2.
Proof.
  cbv zeta.
  pose proof (disconnect_presence_transition [(1, "p"); (1, "q")] voice_server [] 1
                socket_run_reauth "s1" 30) as [H1 _].
  pose proof (disconnect_presence_transition [(1, "p"); (1, "q")] voice_server [] 1
                socket_run_reauth "s2" 30) as [_ [_ H2]].
  split; [split; [vm_compute; reflexivity | apply H1; vm_compute; reflexivity] |].
  split; [| vm_compute; reflexivity].
  split; [vm_compute; reflexivity |]. split; [vm_compute; reflexivity |].
  exact (H2 (mkUserSession "p" 1) [] ltac:(vm_compute; reflexivity) ltac:(vm_compute; reflexivity)).
Defined.

(** A connect followed by a disconnect of the same (server, user) pair
    gives back the registry exactly as it was (in a registry with only
    positive counts and non-empty server maps), and the "user:offline"
    broadcast of the disconnect fires iff the connect fired
    "user:online". *)
Theorem presence_connect_disconnect_roundtrip (reg : gmap Z (gmap string Z)) (r : Z) (u : string) :
  registry_ok reg ->
  presence_disconnect (fst (presence_connect reg r u)) r u = (reg, snd (presence_connect reg r u)).
Proof.
  intros Hok. pose proof (prev_count_nonneg reg r u Hok) as Hnn.
  unfold presence_connect. cbn [fst snd]. unfold presence_disconnect.
  set (m := default ∅ (reg !! r)) in *.
  set (prev := default 0 (m !! u)) in *.
  rewrite lookup_insert_eq. cbn [default from_option]. unfold id.
  rewrite lookup_insert_eq. cbn [default from_option]. unfold id.
  replace (Z.max 0 (prev + 1 - 1)) with prev by lia.
  destruct (Z.eqb_spec prev 0) as [Hz | Hz].
  - assert (Hmu : m !! u = None).
    { destruct (m !! u) as [c |] eqn:Hc; [| reflexivity].
      pose proof (server_map_counts reg r u c Hok Hc). unfold prev in Hz. rewrite ?Hc in Hz.
      cbn in Hz. lia. }
    rewrite delete_insert_eq, (delete_id m u Hmu).
    unfold m. destruct (reg !! r) as [m0 |] eqn:Hr; cbn [default from_option]; unfold id.
    + destruct (Hok r m0 Hr) as [Hne _].
      assert (Hs : Nat.eqb (size m0) 0 = false).
      { apply Nat.eqb_neq. intros Hs%map_size_empty_iff. exact (Hne Hs). }
      rewrite Hs, insert_insert_eq, (insert_id reg r m0 Hr). reflexivity.
    + rewrite map_size_empty. cbn [Nat.eqb].
      rewrite delete_insert_eq, (delete_id reg r Hr). reflexivity.
  - assert (Hmu : m !! u = Some prev).
    { unfold prev. destruct (m !! u); [reflexivity |]. cbn in Hz. lia. }
    rewrite insert_insert_eq, (insert_id m u prev Hmu).
    assert (Hm : m <> ∅).
    { intros He. rewrite He, lookup_empty in Hmu. discriminate. }
    assert (Hs : Nat.eqb (size m) 0 = false).
    { apply Nat.eqb_neq. intros Hs%map_size_empty_iff. exact (Hm Hs). }
    rewrite Hs, insert_insert_eq.
    assert (Hr : reg !! r = Some m).
    { unfold m in *. destruct (reg !! r); [reflexivity |]. cbn in Hm. done. }
    rewrite (insert_id reg r m Hr). reflexivity.
Qed.

Lemma presence_connect_disconnect_roundtrip_witness :
  registry_ok reg_bob /\
  presence_disconnect (fst (presence_connect reg_bob 1 "alice")) 1 "alice" =
    (reg_bob, snd (presence_connect reg_bob 1 "alice")).
Proof.
  assert (Hok : registry_ok reg_bob).
  { intros r m Hl. unfold reg_bob in Hl.
    apply lookup_singleton_Some in Hl as [<- <-].
    split; [apply insert_non_empty |].
    intros u c Hc. apply lookup_singleton_Some in Hc as [_ <-]. lia. }
  split; [exact Hok |].
  exact (presence_connect_disconnect_roundtrip reg_bob 1 "alice" Hok).
Defined.

(** A successful "auth" records the socket's session, and the
    "presence:sync" it sends lists exactly the users who were online on
    that server before, plus the authenticating user. *)
Theorem auth_presence_sync (st : socket_state) (sid u : string) (r : Z) :
  u <> EmptyString ->
  existsb (fun m => Z.eqb (fst m) r && String.eqb (snd m) u) (server_memberships st) = true ->
  existsb (String.eqb u) (users (vdb st)) = true ->
  exists online sync,
    fst (auth_handler st sid u (Some r)) = AuthSuccess online sync /\
    userSessions (snd (auth_handler st sid u (Some r))) !! sid = Some (mkUserSession u r) /\
    forall x, In x sync <-> x = u \/ In x (getOnlineUsersForServer (serverOnlineUsers st) r).
Proof.
  intros Hu Hm Hus. rewrite (auth_success st sid u r Hu Hm Hus).
  eexists _, _. split; [reflexivity |]. split; [cbn; apply lookup_insert_eq |].
  intros x. rewrite !online_users_spec.
  destruct (decide (x = u)) as [-> | Hne].
  - rewrite presence_entry_connect. split; [by left | intros _; eexists; reflexivity].
  - rewrite presence_entry_connect_ne by (intros [_ ?]; contradiction).
    split; [by right | intros [? | ?]; [contradiction | assumption]].
Qed.

Lemma auth_presence_sync_witness :
  let st := snd (auth_handler (mkSocketState ∅ ∅ [(1, "p"); (1, "q")]
                                (mkVoiceDb (channels voice_server) ["p"; "q"] [] 1) [] 1)
                              "s3" "q" (Some 1)) in
  (getOnlineUsersForServer (serverOnlineUsers st) 1 = ["q"] /\ "p" <> EmptyString /\
   existsb (fun m => Z.eqb (fst m) 1 && String.eqb (snd m) "p") (server_memberships st) = true /\
   existsb (String.eqb "p") (users (vdb st)) = true /\
   fst (auth_handler st "s1" "p" (Some 1)) = AuthSuccess true ["q"; "p"]) /\
  exists online sync,
    fst (auth_handler st "s1" "p" (Some 1)) = AuthSuccess online sync /\
    userSessions (snd (auth_handler st "s1" "p" (Some 1))) !! "s1" = Some (mkUserSession "p" 1) /\
    forall x, In x sync <-> x = "p" \/ In x (getOnlineUsersForServer (serverOnlineUsers st) 1).
Proof.
  cbv zeta.
  split; [split; [vm_compute; reflexivity |]; split; [discriminate |];
          split; [vm_compute; reflexivity |]; split; vm_compute; reflexivity |].
  apply (auth_presence_sync
           (snd (auth_handler (mkSocketState ∅ ∅ [(1, "p"); (1, "q")]
                                 (mkVoiceDb (channels voice_server) ["p"; "q"] [] 1) [] 1)
                              "s3" "q" (Some 1)))
           "s1" "p" 1); [discriminate | vm_compute; reflexivity | vm_compute; reflexivity].
Defined.

(** On any run of the handlers from empty maps in which no socket sends
    "auth" while it already has a session, the registry counts sockets:
    the entry of (server, user) is absent iff no socket is authenticated
    as that user on that server, and otherwise holds the number of such
    sockets. *)
Theorem socket_registry_counts_sockets (memberships : list (Z * string)) (d : voice_db)
    (msgs : list message) (n : Z) (evs : list socket_event) :
  no_reauth (mkSocketState ∅ ∅ memberships d msgs n) evs = true ->
  forall r u,
    presence_entry (serverOnlineUsers (run_sockets (mkSocketState ∅ ∅ memberships d msgs n) evs)) r u =
    count_entry (session_count (userSessions (run_sockets (mkSocketState ∅ ∅ memberships d msgs n) evs)) r u).
Proof.
  intros Hno. apply run_sockets_inv; [apply socket_inv_init | exact Hno].
Qed.

Lemma socket_registry_counts_sockets_witness :
  no_reauth empty_state socket_run_example = true /\
  presence_entry (serverOnlineUsers (run_sockets empty_state socket_run_example)) 1 "p" =
    count_entry (session_count (userSessions (run_sockets empty_state socket_run_example)) 1 "p").
Proof.
  split; [vm_compute; reflexivity |].
  apply (socket_registry_counts_sockets [(1, "p"); (1, "q")] voice_server [] 1 socket_run_example).
  vm_compute. reflexivity.
Defined.

(** A second "auth" on a socket that is already authenticated counts a
    second connection, but its one disconnect removes only one: after
    auth, auth and disconnect on a fresh socket of a reachable state,
    the sessions are as before while the registry holds one connection
    more than there are sockets for that (server, user), so the user
    stays listed online. *)
Theorem socket_reauth_leaks_presence (memberships : list (Z * string)) (d : voice_db)
    (msgs : list message) (n : Z) (evs : list socket_event) (sid u : string) (r now : Z) :
  no_reauth (mkSocketState ∅ ∅ memberships d msgs n) evs = true ->
  let st := run_sockets (mkSocketState ∅ ∅ memberships d msgs n) evs in
  userSessions st !! sid = None ->
  u <> EmptyString ->
  existsb (fun m => Z.eqb (fst m) r && String.eqb (snd m) u) (server_memberships st) = true ->
  existsb (String.eqb u) (users (vdb st)) = true ->
  forallb (fun s => Z.leb (vs_joined_at s) now) (voice_sessions (vdb st)) = true ->
  let st' := run_sockets st [SAuth sid u (Some r); SAuth sid u (Some r); SDisconnect sid now] in
  userSessions st' = userSessions st /\
  presence_entry (serverOnlineUsers st') r u =
    Some (Z.of_nat (session_count (userSessions st') r u) + 1).
Proof.
  intros Hno st Hsid Hu Hm Hus Hj.
  pose proof (run_sockets_inv _ evs (socket_inv_init memberships d msgs n) Hno) as [Hok Hinv].
  fold st in Hok, Hinv. clearbody st.
  unfold run_sockets. cbn [fold_left socket_step].
  rewrite (auth_success st sid u r Hu Hm Hus). cbn [snd].
  erewrite (auth_success _ sid u r Hu); [cbn [snd] | exact Hm | exact Hus].
  destruct (close_user_sessions_ok u now _ (forallb_joined _ _ Hj)) as [rows [Hrows _]].
  rewrite (disconnect_success _ sid now (mkUserSession u r) rows) by
    (cbn; first [apply lookup_insert_eq | exact Hrows]).
  cbn [snd userSessions serverOnlineUsers us_userId us_serverId].
  rewrite insert_insert_eq, delete_insert_eq, (delete_id _ _ Hsid).
  split; [reflexivity |].
  rewrite presence_entry_disconnect, decide_True by auto.
  rewrite !presence_entry_connect, Hinv.
  unfold count_entry. destruct (Nat.eqb_spec (session_count (userSessions st) r u) 0) as [-> | Hn].
  - cbn. reflexivity.
  - cbn [default from_option disconnect_entry]. unfold id.
    rewrite (proj2 (Z.eqb_neq _ 0)) by lia. f_equal. lia.
Qed.

Lemma socket_reauth_leaks_presence_witness :
  let st := run_sockets empty_state [] in
  (no_reauth empty_state [] = true /\ userSessions st !! "s9" = None /\ "p" <> EmptyString /\
   existsb (fun m => Z.eqb (fst m) 1 && String.eqb (snd m) "p") (server_memberships st) = true /\
   existsb (String.eqb "p") (users (vdb st)) = true /\
   forallb (fun s => Z.leb (vs_joined_at s) 30) (voice_sessions (vdb st)) = true) /\
  let st' := run_sockets st [SAuth "s9" "p" (Some 1); SAuth "s9" "p" (Some 1); SDisconnect "s9" 30] in
  userSessions st' = userSessions st /\
  presence_entry (serverOnlineUsers st') 1 "p" =
    Some (Z.of_nat (session_count (userSessions st') 1 "p") + 1).
Proof.
  cbv zeta.
  split; [split; [reflexivity |]; split; [reflexivity |]; split; [discriminate |];
          split; [reflexivity |]; split; reflexivity |].
  apply (socket_reauth_leaks_presence [(1, "p"); (1, "q")] voice_server [] 1 [] "s9" "p" 1 30);
    first [reflexivity | discriminate].
Defined.



End SocketClaims.

Module VoiceChannelClaims.
Import Voice VoiceFacts Sockets SocketFacts.

(** voice:join does not look for an open row of the user: n successful
    joins of one socket to one voice channel put its user n more times
    into the channel's roster (counted as a multiset, whatever order the
    roster query returns), and leave the count of every other user as it
    was. *)
Theorem voice_join_never_dedups (st : socket_state) (sid : string) (s : UserSession)
    (c now : Z) (n : nat) :
  userSessions st !! sid = Some s -> c <> 0 ->
  existsb (fun ch => Z.eqb (ch_id ch) c && Z.eqb (ch_server_id ch) (us_serverId s)
                     && String.eqb (ch_type ch) "voice") (channels (vdb st)) = true ->
  existsb (String.eqb (us_userId s)) (users (vdb st)) = true ->
  forall x,
    count_occ String.string_dec
      (participants (vdb (run_sockets st (repeat (SVoiceJoin sid c now) n))) c) x =
    (count_occ String.string_dec (participants (vdb st) c) x +
     if String.eqb x (us_userId s) then n else 0)%nat.
Proof.
  revert st. induction n as [| n IH]; intros st Hs Hc Hch Hus x.
  - cbn. destruct (String.eqb x (us_userId s)); lia.
  - unfold run_sockets. cbn [repeat fold_left]. fold (run_sockets (socket_step st (SVoiceJoin sid c now))
                                                     (repeat (SVoiceJoin sid c now) n)).
    rewrite (voice_join_step st sid s c now Hs Hc Hch Hus).
    rewrite IH; [| exact Hs | exact Hc | exact Hch | exact Hus].
    cbn [with_vdb vdb]. rewrite participants_join by exact Hus.
    rewrite count_occ_app. cbn [count_occ].
    destruct (String.eqb_spec x (us_userId s)) as [Heq | Hne];
      destruct (String.string_dec (us_userId s) x) as [Heq' | Hne']; try congruence; lia.
Qed.

Lemma voice_join_never_dedups_witness :
  let st := snd (auth_handler empty_state "s1" "p" (Some 1)) in
  (userSessions st !! "s1" = Some (mkUserSession "p" 1) /\ 5 <> 0 /\
   existsb (fun ch => Z.eqb (ch_id ch) 5 && Z.eqb (ch_server_id ch) 1
                      && String.eqb (ch_type ch) "voice") (channels (vdb st)) = true /\
   existsb (String.eqb "p") (users (vdb st)) = true /\
   participants (vdb (run_sockets st (repeat (SVoiceJoin "s1" 5 10) 3))) 5 = ["p"; "p"; "p"]) /\
  count_occ String.string_dec
    (participants (vdb (run_sockets st (repeat (SVoiceJoin "s1" 5 10) 3))) 5) "p" =
  (count_occ String.string_dec (participants (vdb st) 5) "p" +
   if String.eqb "p" (us_userId (mkUserSession "p" 1)) then 3 else 0)%nat.
Proof.
  cbv zeta.
  split; [split; [vm_compute; reflexivity |]; split; [lia |];
          split; [vm_compute; reflexivity |]; split; vm_compute; reflexivity |].
  apply (voice_join_never_dedups (snd (auth_handler empty_state "s1" "p" (Some 1)))
           "s1" (mkUserSession "p" 1) 5 10 3);
    [vm_compute; reflexivity | lia | vm_compute; reflexivity | vm_compute; reflexivity].
Defined.

(** voice:leave on channel c never changes the roster of another
    channel, whether it succeeds or fails. *)
Theorem voice_leave_other_channels (d : voice_db) (session : option UserSession) (c c' now : Z) :
  c' <> c ->
  participants (snd (voice_leave d session c now)) c' = participants d c'.
Proof.
  intros Hne. unfold voice_leave.
  destruct session as [s |]; [| reflexivity].
  destruct (Z.eqb c 0); [reflexivity |].
  destruct (close_sessions (us_userId s) c now (voice_sessions d)) as [rows |] eqn:Hcl;
    [| reflexivity].
  cbn [snd]. rewrite participants_irrelevant, (participants_irrelevant d). cbn [users voice_sessions].
  exact (close_sessions_other (us_userId s) c c' now (users d) _ rows Hne Hcl).
Qed.

Lemma voice_leave_other_channels_witness :
  let d := mkVoiceDb [mkChannel 5 1 "voice"; mkChannel 6 1 "voice"] ["p"]
             [mkVoiceSession 1 5 "p" 10 None; mkVoiceSession 2 6 "p" 11 None] 3 in
  6 <> 5 /\ participants (snd (voice_leave d (Some session_p) 5 20)) 6 = participants d 6 /\
  participants d 6 = ["p"].
Proof.
  cbv zeta. split; [lia |]. split; [apply voice_leave_other_channels; lia | reflexivity].
Defined.

(** When an authenticated socket disconnects (and no open row of its
    user started after now), the handler drops the socket's session and
    closes every open voice row of that user, on every channel, so the
    user is in no voice roster afterwards, even if another socket of the
    same user is still connected. *)
Theorem disconnect_ends_voice (st : socket_state) (sid : string) (s : UserSession) (now : Z) :
  userSessions st !! sid = Some s ->
  forallb (fun v => Z.leb (vs_joined_at v) now) (voice_sessions (vdb st)) = true ->
  userSessions (snd (disconnect_handler st sid now)) = delete sid (userSessions st) /\
  forall c, ~ In (us_userId s) (participants (vdb (snd (disconnect_handler st sid now))) c).
Proof.
  intros Hs Hj.
  destruct (close_user_sessions_ok (us_userId s) now _ (forallb_joined _ _ Hj)) as [rows [Hrows Hno]].
  rewrite (disconnect_success st sid now s rows Hs Hrows). cbn [snd userSessions vdb].
  split; [reflexivity |]. intros c Hin.
  apply participants_spec in Hin as (v & Hv & Hu & _ & Hl). cbn [voice_sessions] in Hv.
  rewrite List.Forall_forall in Hno. exact (Hno v Hv (conj Hu Hl)).
Qed.

Lemma disconnect_ends_voice_witness :
  let st := run_sockets empty_state socket_run_example_voice in
  (userSessions st !! "s2" = Some (mkUserSession "p" 1) /\
   forallb (fun v => Z.leb (vs_joined_at v) 30) (voice_sessions (vdb st)) = true /\
   participants (vdb st) 5 = ["p"; "p"]) /\
  userSessions (snd (disconnect_handler st "s2" 30)) = delete "s2" (userSessions st) /\
  forall c, ~ In (us_userId (mkUserSession "p" 1))
                 (participants (vdb (snd (disconnect_handler st "s2" 30))) c).
Proof.
  cbv zeta.
  split; [split; [vm_compute; reflexivity |]; split; vm_compute; reflexivity |].
  apply disconnect_ends_voice; vm_compute; reflexivity.
Defined.

(** message:send with a string whose JS trim is not empty, on a channel
    of the socket's server, by a user that exists, always stores the
    message: the stored content is the trimmed string, and it satisfies
    the table's CHECK (length(trim(content)) > 0), so the insert is
    never rejected by that constraint. *)
Theorem message_send_stores_trimmed (st : socket_state) (sid : string) (s : UserSession)
    (c : Z) (text : string) :
  userSessions st !! sid = Some s ->
  js_trim text <> EmptyString ->
  existsb (fun ch => Z.eqb (ch_id ch) c && Z.eqb (ch_server_id ch) (us_serverId s))
          (channels (vdb st)) = true ->
  existsb (String.eqb (us_userId s)) (users (vdb st)) = true ->
  messages_content_nonempty (js_trim text) = true /\
  message_send st sid c (Some text) =
    (MsgSent (next_message_id st) (js_trim text),
     mkSocketState (userSessions st) (serverOnlineUsers st) (server_memberships st) (vdb st)
                   (messages st ++ [mkMessage (next_message_id st) c (us_userId s) (js_trim text)])
                   (next_message_id st + 1)).
Proof.
  intros Hs Ht Hch Hus. pose proof (js_trim_passes_check text Ht) as Hchk.
  split; [exact Hchk |].
  unfold message_send. rewrite Hs, (proj2 (String.eqb_neq _ _) Ht), Hch, Hus.
  cbn [negb orb msg_content]. rewrite Hchk. reflexivity.
Qed.

Lemma message_send_stores_trimmed_witness :
  let st := snd (auth_handler empty_state "s1" "p" (Some 1)) in
  let text := String (Ascii.ascii_of_nat 9) (" hello" +:+ String (Ascii.ascii_of_nat 160) EmptyString) in
  (userSessions st !! "s1" = Some (mkUserSession "p" 1) /\ js_trim text = "hello" /\
   existsb (fun ch => Z.eqb (ch_id ch) 5 && Z.eqb (ch_server_id ch) 1) (channels (vdb st)) = true /\
   existsb (String.eqb "p") (users (vdb st)) = true) /\
  messages_content_nonempty (js_trim text) = true /\
  message_send st "s1" 5 (Some text) =
    (MsgSent (next_message_id st) (js_trim text),
     mkSocketState (userSessions st) (serverOnlineUsers st) (server_memberships st) (vdb st)
                   (messages st ++ [mkMessage (next_message_id st) 5 "p" (js_trim text)])
                   (next_message_id st + 1)).
Proof.
  cbv zeta.
  split; [split; [vm_compute; reflexivity |]; split; [vm_compute; reflexivity |];
          split; vm_compute; reflexivity |].
  apply (message_send_stores_trimmed _ "s1" (mkUserSession "p" 1));
    [vm_compute; reflexivity | vm_compute; discriminate | vm_compute; reflexivity
    | vm_compute; reflexivity].
Defined.

(** POST /servers/:serverId/channels with a name that is not blank and
    type "voice" creates a voice channel of that server under the trimmed
    name, and a user of that server can then join it over voice:join
    and is in the roster it broadcasts. *)
Theorem create_voice_channel_then_join (d : voice_db) (sid : Z) (nm : string) (newId : Z)
    (s : UserSession) (now : Z) :
  js_trim nm <> EmptyString -> newId <> 0 -> us_serverId s = sid ->
  existsb (String.eqb (us_userId s)) (users d) = true ->
  fst (create_channel d (Some sid) (Some nm) "voice" newId) =
    ChannelCreated (mkChannel newId sid "voice") (js_trim nm) /\
  exists ps,
    fst (voice_join (snd (create_channel d (Some sid) (Some nm) "voice" newId)) (Some s) newId now) =
      Joined (next_session_id d) ps /\ In (us_userId s) ps.
Proof.
  intros Hn Hid Hsrv Hus. unfold create_channel.
  assert (Hty : negb (String.eqb "voice" "text" || String.eqb "voice" "voice") = false)
    by reflexivity.
  rewrite (proj2 (String.eqb_neq _ _) Hn), Hty. cbn [fst snd].
  split; [reflexivity |].
  rewrite voice_join_success; cbn [channels users next_session_id fst].
  - eexists. split; [reflexivity |]. apply in_or_app. right. left. reflexivity.
  - exact Hid.
  - cbn [channels]. rewrite existsb_app. apply orb_true_iff. right. cbn.
    rewrite Z.eqb_refl, Hsrv, Z.eqb_refl. reflexivity.
  - cbn [users]. exact Hus.
Qed.

Lemma create_voice_channel_then_join_witness :
  (js_trim "  Lounge " <> EmptyString /\ 9 <> 0 /\ us_serverId session_p = 1 /\
   existsb (String.eqb (us_userId session_p)) (users voice_server) = true) /\
  fst (create_channel voice_server (Some 1) (Some "  Lounge ") "voice" 9) =
    ChannelCreated (mkChannel 9 1 "voice") (js_trim "  Lounge ") /\
  exists ps,
    fst (voice_join (snd (create_channel voice_server (Some 1) (Some "  Lounge ") "voice" 9))
                    (Some session_p) 9 40) = Joined (next_session_id voice_server) ps /\
    In (us_userId session_p) ps.
Proof.
  split; [split; [vm_compute; discriminate |]; split; [lia |]; split; reflexivity |].
  apply create_voice_channel_then_join; [vm_compute; discriminate | lia | reflexivity | reflexivity].
Defined.

End VoiceChannelClaims.
